(** * Time Series Insights Environment resource: model and verification

    Shallow embedding of
    [azurerm/internal/services/timeseriesinsights/resource_time_series_insights_environment.go]:
    the schema validators of [name] and [sku_name], the SKU helpers
    [expandEnvironmentSkuName] / [flattenEnvironmentSkuName], and the
    create-update, read and delete handlers over an abstract SDK client.

    Go strings are byte sequences, modelled as [string] (a list of 8-bit
    [ascii]).  Go's [int] is taken to be 64 bits wide ([intSize]); [int32]
    values are kept as [Z] with the conversion's wrap-around written out.
    A Go function that may return an error or panic is a value of [go A]. *)

From Stdlib Require Import ZArith String Ascii List Lia.
From Stdlib Require Import DecimalString DecimalZ DecimalPos.
From stdpp Require Import base gmap strings list.

#[local] Open Scope string_scope.
#[local] Open Scope Z_scope.
#[local] Set Warnings "-register-all".

(** ** Errors, panics and the result of a Go call *)

(** One constructor per place where the file makes an [error]; the arguments
    are the values handed to the format string.  [SdkError] stands for an
    error made outside this file (the SDK client, the ID parser, the tags
    helper). *)
Inductive error : Type :=
  | SdkError (msg : string)
  | ErrExpandingSku (cause : error)
  | ErrCheckingPresence (name resourceGroup : string) (cause : error)
  | ErrExistingNotStandard (name resourceGroup : string)
  | ImportAsExistsError (resourceName id : string)
  | ErrCreatingUpdating (name resourceGroup : string) (cause : error)
  | ErrWaitingForCompletion (name resourceGroup : string) (cause : error)
  | ErrRetrieving (name resourceGroup : string) (cause : option error)
  | ErrNotStandard (name resourceGroup : string)
  | ErrCannotReadID (name resourceGroup : string)
  | ErrDeleting (name resourceGroup : string) (cause : error)
  | ErrWrongNumberOfParts (skuName : string) (parts : Z)
  | ErrUnknownSkuTier (skuName tier : string)
  | ErrCannotConvertCapacity (skuName capacity : string).

(** Run-time panics the modelled code can raise. *)
Inductive panic : Type :=
  | IndexOutOfRange (index len : Z)
  | NilDereference.

Inductive go (A : Type) : Type :=
  | Ok (a : A)
  | Err (e : error)
  | Panic (p : panic).

Arguments Ok {A} a.
Arguments Err {A} e.
Arguments Panic {A} p.

Definition go_bind {A B : Type} (m : go A) (k : A -> go B) : go B :=
  match m with
  | Ok a => k a
  | Err e => Err e
  | Panic p => Panic p
  end.

Notation "x <- m ;; k" := (go_bind m (fun x => k))
  (at level 100, m at next level, right associativity).

(** [parts[i]] on a slice: a panic when [i] is out of range. *)
Definition index {A : Type} (parts : list A) (i : nat) : go A :=
  match nth_error parts i with
  | Some x => Ok x
  | None => Panic (IndexOutOfRange (Z.of_nat i) (Z.of_nat (length parts)))
  end.

(** [*p] on a pointer. *)
Definition deref {A : Type} (p : option A) : go A :=
  match p with
  | Some a => Ok a
  | None => Panic NilDereference
  end.

Definition is_nil {A : Type} (p : option A) : bool :=
  match p with
  | Some _ => false
  | None => true
  end.

(** ** The Go library functions the helpers call *)

(** [strings.Split(s, sep)] for a one-byte separator: the pieces between the
    occurrences of [sep]; the empty string gives one empty piece. *)
Fixpoint Split (s : string) (sep : ascii) : list string :=
  match s with
  | EmptyString => [EmptyString]
  | String c rest =>
      if Ascii.eqb c sep then EmptyString :: Split rest sep
      else match Split rest sep with
           | piece :: pieces => String c piece :: pieces
           | [] => [String c EmptyString]
           end
  end.

Definition intSize : Z := 64.

Inductive NumError : Type :=
  | ErrSyntax
  | ErrRange.

(** [ch -= '0'; if ch > 9 { syntax error }] on a byte (the subtraction wraps
    around at 256). *)
Definition digit_of (ch : ascii) : option Z :=
  let d := (Z.of_N (N_of_ascii ch) - 48) mod 256 in
  if d <=? 9 then Some d else None.

(** The digit loop: [n = n*10 + int(ch)]. *)
Fixpoint parse_digits (s : string) (n : Z) : option Z :=
  match s with
  | EmptyString => Some n
  | String ch rest =>
      match digit_of ch with
      | Some d => parse_digits rest (n * 10 + d)
      | None => None
      end
  end.

Definition in_int (n : Z) : bool :=
  (- 2 ^ (intSize - 1) <=? n) && (n <? 2 ^ (intSize - 1)).

(** [strconv.Atoi]: an optional sign, then one or more decimal digits; a
    syntax error otherwise, a range error when the value does not fit [int]. *)
Definition Atoi (s : string) : Z + NumError :=
  match s with
  | EmptyString => inr ErrSyntax
  | String c rest =>
      let neg := Ascii.eqb c "-" in
      let digits := if neg || Ascii.eqb c "+" then rest else s in
      match digits with
      | EmptyString => inr ErrSyntax
      | _ =>
          match parse_digits digits 0 with
          | None => inr ErrSyntax
          | Some un =>
              let n := if neg then - un else un in
              if in_int n then inl n else inr ErrRange
          end
      end
  end.

(** The conversion [int32(n)]: the low 32 bits, read as a signed number. *)
Definition int32 (n : Z) : Z := (n + 2 ^ 31) mod 2 ^ 32 - 2 ^ 31.

Definition is_int32 (n : Z) : Prop := - 2 ^ 31 <= n < 2 ^ 31.

(** The verb [%d]: decimal digits, with a leading minus for a negative. *)
Definition FormatInt (n : Z) : string := NilZero.string_of_int (Z.to_int n).

(** ** The SDK's SKU type *)

Definition SkuName : Type := string.
Definition S1 : SkuName := "S1".
Definition S2 : SkuName := "S2".

(** [timeseriesinsights.Sku]: [Capacity] is a [*int32]. *)
Record Sku : Type := mkSku {
  Name : SkuName;
  Capacity : option Z
}.

(** ** expandEnvironmentSkuName and flattenEnvironmentSkuName *)

Definition expandEnvironmentSkuName (skuName : string) : go Sku :=
  let parts := Split skuName "_" in
  if negb (Nat.eqb (length parts) 2) then
    Err (ErrWrongNumberOfParts skuName (Z.of_nat (length parts)))
  else
    part0 <- index parts 0 ;;
    name <- (if String.eqb part0 "S1" then Ok S1
             else if String.eqb part0 "S2" then Ok S2
             else Err (ErrUnknownSkuTier skuName part0)) ;;
    part1 <- index parts 1 ;;
    match Atoi part1 with
    | inr _ =>
        part2 <- index parts 2 ;;
        Err (ErrCannotConvertCapacity skuName part2)
    | inl capacity =>
        Ok {| Name := name; Capacity := Some (int32 capacity) |}
    end.

(** [fmt.Sprintf("%s_%d", name, capacity)]. *)
Definition Sprintf_s_d (name : string) (capacity : Z) : string :=
  name +:+ "_" +:+ FormatInt capacity.

Definition flattenEnvironmentSkuName (input : option Sku) : go string :=
  absent <- (if is_nil input then Ok true
             else sku <- deref input ;; Ok (is_nil (Capacity sku))) ;;
  if absent : bool then Ok ""
  else
    sku <- deref input ;;
    capacity <- deref (Capacity sku) ;;
    Ok (Sprintf_s_d (Name sku) capacity).

(** ** Schema validators

    A [SchemaValidateFunc] returns the list of its errors; a value is accepted
    when the list is empty. *)

(** The fragment of regular expressions the schema uses.  [Class] is a
    character class given by its membership test; classes here hold ASCII
    characters only, so matching bytes and matching UTF-8 runes agree. *)
Inductive regexp : Type :=
  | Empty
  | Eps
  | Class (cls : ascii -> bool)
  | Seq (r1 r2 : regexp)
  | Alt (r1 r2 : regexp)
  | Star (r : regexp).

Fixpoint nullable (r : regexp) : bool :=
  match r with
  | Empty => false
  | Eps => true
  | Class _ => false
  | Seq r1 r2 => nullable r1 && nullable r2
  | Alt r1 r2 => nullable r1 || nullable r2
  | Star _ => true
  end.

Fixpoint deriv (c : ascii) (r : regexp) : regexp :=
  match r with
  | Empty => Empty
  | Eps => Empty
  | Class cls => if cls c then Eps else Empty
  | Seq r1 r2 =>
      if nullable r1 then Alt (Seq (deriv c r1) r2) (deriv c r2)
      else Seq (deriv c r1) r2
  | Alt r1 r2 => Alt (deriv c r1) (deriv c r2)
  | Star r1 => Seq (deriv c r1) (Star r1)
  end.

(** [r.MatchString(s)] for a pattern anchored as [^r$]: the whole of [s]
    matches [r]. *)
Fixpoint MatchString (r : regexp) (s : string) : bool :=
  match s with
  | EmptyString => nullable r
  | String c rest => MatchString (deriv c r) rest
  end.

Definition Plus (r : regexp) : regexp := Seq r (Star r).

Definition byte_in (lo hi : N) (c : ascii) : bool :=
  (lo <=? N_of_ascii c)%N && (N_of_ascii c <=? hi)%N.

(** [\w]: digits, letters and the underscore. *)
Definition word_char (c : ascii) : bool :=
  byte_in 48 57 c || byte_in 65 90 c || byte_in 97 122 c || Ascii.eqb c "_".

(** The class [[-\w\._\(\)]]. *)
Definition name_class (c : ascii) : bool :=
  Ascii.eqb c "-" || word_char c || Ascii.eqb c "." || Ascii.eqb c "_"
  || Ascii.eqb c "(" || Ascii.eqb c ")".

(** [regexp.MustCompile(`^[-\w\._\(\)]+$`)]. *)
Definition name_regexp : regexp := Plus (Class name_class).

Definition name_message : string :=
  "Time Series Insights Environment name must be 1 - 90 characters long, contain only word characters and underscores.".

(** [validation.StringMatch(r, message)] applied to the value [v] of key [k]. *)
Definition StringMatch (r : regexp) (message : string) (v k : string) : list string :=
  if negb (MatchString r v) then
    ["invalid value for " +:+ k +:+ " (" +:+ message +:+ ")"]
  else [].

(** The [ValidateFunc] of the attribute [name]. *)
Definition validate_name (v : string) : list string :=
  StringMatch name_regexp name_message v "name".

Definition sku_names : list string :=
  [ "S1_1"; "S1_2"; "S1_3"; "S1_4"; "S1_5";
    "S1_6"; "S1_7"; "S1_8"; "S1_9"; "S1_10";
    "S2_1"; "S2_2"; "S2_3"; "S2_4"; "S2_5";
    "S2_6"; "S2_7"; "S2_8"; "S2_9"; "S2_10" ].

Fixpoint join (sep : string) (l : list string) : string :=
  match l with
  | [] => ""
  | [x] => x
  | x :: rest => x +:+ sep +:+ join sep rest
  end.

(** [validation.StringInSlice(valid, false)] applied to the value [v] of key
    [k]; with [ignoreCase] false only the exact comparison [v == str] is
    made. *)
Definition StringInSlice (valid : list string) (v k : string) : list string :=
  if existsb (String.eqb v) valid then []
  else ["expected " +:+ k +:+ " to be one of [" +:+ join " " valid +:+ "], got " +:+ v].

(** The [ValidateFunc] of the attribute [sku_name]. *)
Definition validate_sku_name (v : string) : list string :=
  StringInSlice sku_names v "sku_name".

(** A SKU string is accepted by the adapter when the schema validates it and
    [expandEnvironmentSkuName] returns a SKU for it. *)
Definition sku_accepted (v : string) : bool :=
  match validate_sku_name v, expandEnvironmentSkuName v with
  | [], Ok _ => true
  | _, _ => false
  end.

(** The set the specification names: the tiers S1 and S2, each with the
    capacities 1 to 10, written [tier_capacity]. *)
Definition enumerated_sku_set : list string :=
  flat_map (fun tier => map (fun capacity => Sprintf_s_d tier capacity)
                            [1; 2; 3; 4; 5; 6; 7; 8; 9; 10])
           [S1; S2].

(** The length bound the specification states for names: the same class,
    between 1 and 90 characters. *)
Definition spec_name_pattern (v : string) : bool :=
  negb (Nat.eqb (String.length v) 0) && Nat.leb (String.length v) 90
  && forallb name_class (list_ascii_of_string v).

(** ** The SDK's resource types and the plugin framework's ResourceData *)

(** [http.Response], of which the handlers read the status code only. *)
Record http_Response : Type := mkResponse {
  StatusCode : Z
}.

(** [autorest.Response]: a [*http.Response]. *)
Definition autorest_Response : Type := option http_Response.

Record StandardEnvironmentResourceProperties : Type := mkProperties {
  StorageLimitExceededBehavior : string;
  DataRetentionTime : option string
}.

Record StandardEnvironmentResource : Type := mkStandard {
  std_Properties : option StandardEnvironmentResourceProperties;
  std_Sku : option Sku;
  std_ID : option string;
  std_Name : option string;
  std_Location : option string;
  std_Tags : gmap string (option string)
}.

(** The other two implementations of [BasicEnvironmentResource]; the handlers
    read none of their fields. *)
Record LongTermEnvironmentResource : Type := mkLongTerm {
  lt_Sku : option Sku;
  lt_ID : option string;
  lt_Name : option string;
  lt_Location : option string;
  lt_Tags : gmap string (option string)
}.

Record EnvironmentResource : Type := mkBase {
  base_Sku : option Sku;
  base_ID : option string;
  base_Name : option string;
  base_Location : option string;
  base_Tags : gmap string (option string)
}.

(** The interface [BasicEnvironmentResource] with its three implementations. *)
Inductive BasicEnvironmentResource : Type :=
  | IsStandardEnvironmentResource (r : StandardEnvironmentResource)
  | IsLongTermEnvironmentResource (r : LongTermEnvironmentResource)
  | IsEnvironmentResource (r : EnvironmentResource).

Definition AsStandardEnvironmentResource (v : BasicEnvironmentResource)
  : option StandardEnvironmentResource :=
  match v with
  | IsStandardEnvironmentResource r => Some r
  | _ => None
  end.

(** The [ID] field every implementation carries. *)
Definition resource_ID (v : BasicEnvironmentResource) : option string :=
  match v with
  | IsStandardEnvironmentResource r => std_ID r
  | IsLongTermEnvironmentResource r => lt_ID r
  | IsEnvironmentResource r => base_ID r
  end.

(** [EnvironmentResourceModel]: the response and a (possibly nil) value. *)
Record EnvironmentResourceModel : Type := mkModel {
  Response : autorest_Response;
  Value : option BasicEnvironmentResource
}.

Record StandardEnvironmentCreateOrUpdateParameters : Type := mkParameters {
  param_Location : option string;
  param_Tags : gmap string (option string);
  param_Sku : option Sku;
  param_Properties : option StandardEnvironmentResourceProperties
}.

(** [schema.ResourceData] for this schema: the ID, whether the resource is
    new, the string attributes by key, and the [tags] map.  The schema types
    every attribute, so [d.Get(k).(string)] does not fail; an unset string
    attribute reads as the empty string. *)
Record ResourceData : Type := mkResourceData {
  Id : string;
  IsNewResource : bool;
  attributes : gmap string string;
  tags : gmap string string
}.

Definition d_Get (d : ResourceData) (k : string) : string :=
  default "" (attributes d !! k).

(** [d.Set(k, v)] for a [*string] or string value: a nil pointer removes
    the attribute. *)
Definition d_Set (d : ResourceData) (k : string) (v : option string) : ResourceData :=
  {| Id := Id d; IsNewResource := IsNewResource d;
     attributes := match v with
                   | Some s => <[k := s]> (attributes d)
                   | None => delete k (attributes d)
                   end;
     tags := tags d |}.

Definition d_SetId (d : ResourceData) (id : string) : ResourceData :=
  {| Id := id; IsNewResource := IsNewResource d;
     attributes := attributes d; tags := tags d |}.

Record TimeSeriesInsightsEnvironmentId : Type := mkEnvironmentId {
  ResourceGroup : string;
  EnvironmentName : string
}.

(** ** What the handlers take from outside this file *)

(** The provider's helper packages the handlers call: the ID parser, the
    not-found test on a response, location normalisation, the tags helpers
    and the import-protection feature flag. *)
Record Helpers : Type := mkHelpers {
  TimeSeriesInsightsEnvironmentID : string -> TimeSeriesInsightsEnvironmentId + error;
  ResponseWasNotFound : autorest_Response -> bool;
  NormalizeLocation : string -> string;
  tags_Expand : gmap string string -> gmap string (option string);
  tags_FlattenAndSet : ResourceData -> gmap string (option string) -> option error * ResourceData;
  ShouldResourcesBeImported : bool
}.

(** The SDK's [EnvironmentsClient], over the state of the remote service. *)
Record EnvironmentsClient : Type := mkClient {
  Remote : Type;
  Future : Type;
  Get : string -> string -> string -> Remote ->
        EnvironmentResourceModel * option error * Remote;
  CreateOrUpdate : string -> string -> StandardEnvironmentCreateOrUpdateParameters ->
                   Remote -> Future * option error * Remote;
  WaitForCompletionRef : Future -> Remote -> option error * Remote;
  Delete : string -> string -> Remote -> autorest_Response * option error * Remote
}.

(** The requests a handler sends, in order. *)
Inductive Request : Type :=
  | GetRequest (resourceGroup name : string)
  | CreateOrUpdateRequest (resourceGroup name : string)
      (parameters : StandardEnvironmentCreateOrUpdateParameters)
  | WaitRequest
  | DeleteRequest (resourceGroup name : string).

Definition mutating (r : Request) : bool :=
  match r with
  | CreateOrUpdateRequest _ _ _ | DeleteRequest _ _ => true
  | GetRequest _ _ | WaitRequest => false
  end.

Section Handlers.

Context (helpers : Helpers) (client : EnvironmentsClient).

(** What a handler works on: the resource data [d], the remote service and
    the requests sent so far. *)
Record State : Type := mkState {
  d : ResourceData;
  remote : Remote client;
  requests : list Request
}.

(** A handler step: a result (or an error, or a panic) and the new state. *)
Definition M (A : Type) : Type := State -> go A * State.

Definition ret {A : Type} (a : A) : M A := fun st => (Ok a, st).

Definition fail {A : Type} (e : error) : M A := fun st => (Err e, st).

Definition bind {A B : Type} (m : M A) (k : A -> M B) : M B :=
  fun st =>
    match m st with
    | (Ok a, st') => k a st'
    | (Err e, st') => (Err e, st')
    | (Panic p, st') => (Panic p, st')
    end.

Definition lift {A : Type} (g : go A) : M A := fun st => (g, st).

Definition get_d : M ResourceData := fun st => (Ok (d st), st).

Definition client_Get (resourceGroup name : string)
  : M (EnvironmentResourceModel * option error) :=
  fun st =>
    let '(resp, err, remote') := Get client resourceGroup name "" (remote st) in
    (Ok (resp, err),
     {| d := d st; remote := remote';
        requests := requests st ++ [GetRequest resourceGroup name] |}).

Definition client_CreateOrUpdate (resourceGroup name : string)
    (parameters : StandardEnvironmentCreateOrUpdateParameters)
  : M (Future client * option error) :=
  fun st =>
    let '(future, err, remote') :=
      CreateOrUpdate client resourceGroup name parameters (remote st) in
    (Ok (future, err),
     {| d := d st; remote := remote';
        requests := requests st ++ [CreateOrUpdateRequest resourceGroup name parameters] |}).

Definition future_WaitForCompletionRef (future : Future client) : M (option error) :=
  fun st =>
    let '(err, remote') := WaitForCompletionRef client future (remote st) in
    (Ok err,
     {| d := d st; remote := remote'; requests := requests st ++ [WaitRequest] |}).

Definition client_Delete (resourceGroup name : string)
  : M (autorest_Response * option error) :=
  fun st =>
    let '(response, err, remote') := Delete client resourceGroup name (remote st) in
    (Ok (response, err),
     {| d := d st; remote := remote';
        requests := requests st ++ [DeleteRequest resourceGroup name] |}).

Definition modify_d (f : ResourceData -> ResourceData) : M unit :=
  fun st => (Ok tt, {| d := f (d st); remote := remote st; requests := requests st |}).

Notation "x <-- m ;; k" := (bind m (fun x => k))
  (at level 100, m at next level, right associativity).

(** [return tags.FlattenAndSet(d, tagMap)]. *)
Definition FlattenAndSet (tagMap : gmap string (option string)) : M unit :=
  fun st =>
    let '(err, d') := tags_FlattenAndSet helpers (d st) tagMap in
    (match err with
     | Some e => Err e
     | None => Ok tt
     end,
     {| d := d'; remote := remote st; requests := requests st |}).

Definition resourceArmTimeSeriesInsightsEnvironmentRead : M unit :=
  d0 <-- get_d ;;
  match TimeSeriesInsightsEnvironmentID helpers (Id d0) with
  | inr err => fail err
  | inl id =>
      r <-- client_Get (ResourceGroup id) (EnvironmentName id) ;;
      let '(resp, err) := r in
      if negb (is_nil err) || is_nil (Value resp) then
        if ResponseWasNotFound helpers (Response resp) then
          modify_d (fun d => d_SetId d "")
        else
          fail (ErrRetrieving (EnvironmentName id) (ResourceGroup id) err)
      else
        value <-- lift (deref (Value resp)) ;;
        match AsStandardEnvironmentResource value with
        | None =>
            fail (ErrExistingNotStandard (EnvironmentName id) (ResourceGroup id))
        | Some environment =>
            _ <-- modify_d (fun d => d_Set d "name" (std_Name environment)) ;;
            _ <-- modify_d (fun d => d_Set d "resource_group_name" (Some (ResourceGroup id))) ;;
            sku_name <-- lift (flattenEnvironmentSkuName (std_Sku environment)) ;;
            _ <-- modify_d (fun d => d_Set d "sku_name" (Some sku_name)) ;;
            _ <-- match std_Location environment with
                  | Some location =>
                      modify_d (fun d =>
                        d_Set d "location" (Some (NormalizeLocation helpers location)))
                  | None => ret tt
                  end ;;
            _ <-- match std_Properties environment with
                  | Some props =>
                      _ <-- modify_d (fun d =>
                              d_Set d "storage_limited_exceeded_behavior"
                                    (Some (StorageLimitExceededBehavior props))) ;;
                      modify_d (fun d =>
                        d_Set d "data_retention_time" (DataRetentionTime props))
                  | None => ret tt
                  end ;;
            FlattenAndSet (std_Tags environment)
        end
  end.

Definition resourceArmTimeSeriesInsightsEnvironmentDelete : M unit :=
  d0 <-- get_d ;;
  match TimeSeriesInsightsEnvironmentID helpers (Id d0) with
  | inr err => fail err
  | inl id =>
      r <-- client_Delete (ResourceGroup id) (EnvironmentName id) ;;
      let '(response, err) := r in
      match err with
      | Some e =>
          if negb (ResponseWasNotFound helpers response) then
            fail (ErrDeleting (EnvironmentName id) (ResourceGroup id) e)
          else ret tt
      | None => ret tt
      end
  end.

(** The import-protection block of the create-update handler: it returns
    early with an error, or falls through. *)
Definition check_existing (name resourceGroup : string) : M unit :=
  d0 <-- get_d ;;
  if ShouldResourcesBeImported helpers && IsNewResource d0 then
    r <-- client_Get resourceGroup name ;;
    let '(existing, err) := r in
    _ <-- match err with
          | Some e =>
              if negb (ResponseWasNotFound helpers (Response existing)) then
                fail (ErrCheckingPresence name resourceGroup e)
              else ret tt
          | None => ret tt
          end ;;
    match Value existing with
    | Some value =>
        match AsStandardEnvironmentResource value with
        | None => fail (ErrExistingNotStandard name resourceGroup)
        | Some environment =>
            match std_ID environment with
            | Some id =>
                if negb (String.eqb id "") then
                  fail (ImportAsExistsError "azurerm_time_series_insights_environment" id)
                else ret tt
            | None => ret tt
            end
        end
    | None => ret tt
    end
  else ret tt.

Definition resourceArmTimeSeriesInsightsEnvironmentCreateUpdate : M unit :=
  d0 <-- get_d ;;
  let name := d_Get d0 "name" in
  let location := NormalizeLocation helpers (d_Get d0 "location") in
  let resourceGroup := d_Get d0 "resource_group_name" in
  let t := tags d0 in
  sku <-- lift (match expandEnvironmentSkuName (d_Get d0 "sku_name") with
                | Ok sku => Ok sku
                | Err err => Err (ErrExpandingSku err)
                | Panic p => Panic p
                end) ;;
  _ <-- check_existing name resourceGroup ;;
  let props :=
    {| StorageLimitExceededBehavior := d_Get d0 "storage_limited_exceeded_behavior";
       DataRetentionTime := Some (d_Get d0 "data_retention_time") |} in
  let environment :=
    {| param_Location := Some location;
       param_Tags := tags_Expand helpers t;
       param_Sku := Some sku;
       param_Properties := Some props |} in
  r <-- client_CreateOrUpdate resourceGroup name environment ;;
  let '(future, err) := r in
  _ <-- match err with
        | Some e => fail (ErrCreatingUpdating name resourceGroup e)
        | None => ret tt
        end ;;
  err <-- future_WaitForCompletionRef future ;;
  _ <-- match err with
        | Some e => fail (ErrWaitingForCompletion name resourceGroup e)
        | None => ret tt
        end ;;
  r <-- client_Get resourceGroup name ;;
  let '(resp, err) := r in
  _ <-- match err with
        | Some e => fail (ErrRetrieving name resourceGroup (Some e))
        | None => ret tt
        end ;;
  value <-- lift (deref (Value resp)) ;;
  match AsStandardEnvironmentResource value with
  | None => fail (ErrNotStandard name resourceGroup)
  | Some resource =>
      match std_ID resource with
      | None => fail (ErrCannotReadID name resourceGroup)
      | Some id =>
          _ <-- modify_d (fun d => d_SetId d id) ;;
          resourceArmTimeSeriesInsightsEnvironmentRead
      end
  end.

End Handlers.

Arguments d {client} _.
Arguments remote {client} _.
Arguments requests {client} _.
Arguments mkState {client} _ _ _.

(** ** A sample instance: helpers and an in-memory service

    Concrete helpers and a client whose remote state is a finite map from
    (resource group, name) to the stored resource, used to run the handlers
    on concrete inputs. *)

Definition ResponseWasStatusCode (resp : autorest_Response) (statusCode : Z) : bool :=
  match resp with
  | Some r => StatusCode r =? statusCode
  | None => false
  end.

Definition sample_id (resourceGroup name : string) : string :=
  "/subscriptions/0/resourceGroups/" +:+ resourceGroup
  +:+ "/providers/Microsoft.TimeSeriesInsights/environments/" +:+ name.

Definition sample_parse_id (id : string) : TimeSeriesInsightsEnvironmentId + error :=
  match Split id "/" with
  | [_; subscriptions; _; resourceGroups; resourceGroup; providers; _; environments; name] =>
      if String.eqb subscriptions "subscriptions"
         && String.eqb resourceGroups "resourceGroups"
         && String.eqb providers "providers"
         && String.eqb environments "environments"
      then inl {| ResourceGroup := resourceGroup; EnvironmentName := name |}
      else inr (SdkError "malformed ID")
  | _ => inr (SdkError "malformed ID")
  end.

Definition sample_helpers (importProtection : bool) : Helpers :=
  {| TimeSeriesInsightsEnvironmentID := sample_parse_id;
     ResponseWasNotFound := fun resp => ResponseWasStatusCode resp 404;
     NormalizeLocation := fun location => location;
     tags_Expand := fun t => Some <$> t;
     tags_FlattenAndSet := fun d tagMap =>
       (None, {| Id := Id d; IsNewResource := IsNewResource d;
                 attributes := attributes d;
                 tags := omap (fun v => v) tagMap |});
     ShouldResourcesBeImported := importProtection |}.

Definition sample_remote : Type := gmap (string * string) BasicEnvironmentResource.

Definition sample_not_found : EnvironmentResourceModel * option error :=
  ({| Response := Some {| StatusCode := 404 |}; Value := None |},
   Some (SdkError "ResourceNotFound")).

Definition sample_client : EnvironmentsClient :=
  {| Remote := sample_remote;
     Future := unit;
     Get := fun resourceGroup name _ (m : sample_remote) =>
       match m !! (resourceGroup, name) with
       | Some v => ({| Response := Some {| StatusCode := 200 |}; Value := Some v |}, None, m)
       | None => (sample_not_found, m)
       end;
     CreateOrUpdate := fun resourceGroup name parameters (m : sample_remote) =>
       (tt, None,
        <[(resourceGroup, name) :=
            IsStandardEnvironmentResource
              {| std_Properties := param_Properties parameters;
                 std_Sku := param_Sku parameters;
                 std_ID := Some (sample_id resourceGroup name);
                 std_Name := Some name;
                 std_Location := param_Location parameters;
                 std_Tags := param_Tags parameters |}]> m);
     WaitForCompletionRef := fun _ (m : sample_remote) => (None, m);
     Delete := fun resourceGroup name (m : sample_remote) =>
       match m !! (resourceGroup, name) with
       | Some _ => (Some {| StatusCode := 200 |}, None, delete (resourceGroup, name) m)
       | None => (Some {| StatusCode := 404 |}, Some (SdkError "ResourceNotFound"), m)
       end |}.

Definition sample_config : ResourceData :=
  {| Id := "";
     IsNewResource := true;
     attributes :=
       <["name" := "env1"]>
       (<["resource_group_name" := "rg1"]>
       (<["location" := "westeurope"]>
       (<["sku_name" := "S1_5"]>
       (<["storage_limited_exceeded_behavior" := "PurgeOldData"]>
       (<["data_retention_time" := "P7D"]> ∅)))));
     tags := ∅ |}.

Definition sample_long_term : BasicEnvironmentResource :=
  IsLongTermEnvironmentResource
    {| lt_Sku := None; lt_ID := Some (sample_id "rg1" "env1");
       lt_Name := Some "env1"; lt_Location := None; lt_Tags := ∅ |}.

Definition sample_standard : BasicEnvironmentResource :=
  IsStandardEnvironmentResource
    {| std_Properties := None; std_Sku := None;
       std_ID := Some (sample_id "rg1" "env1");
       std_Name := Some "env1"; std_Location := None; std_Tags := ∅ |}.

Definition sample_state (d0 : ResourceData) (m : sample_remote) : State sample_client :=
  @mkState sample_client d0 m [].

(** ** Auxiliary definitions for the statements *)

(** Whether the byte [c] occurs in [s]. *)
Fixpoint has_byte (c : ascii) (s : string) : bool :=
  match s with
  | EmptyString => false
  | String c' rest => Ascii.eqb c' c || has_byte c rest
  end.

(** A name of 91 characters, all of the class. *)
Definition long_name : string := string_of_list_ascii (repeat "a"%char 91).

(** States over the in-memory service: an ID whose resource is absent, and a
    new resource whose name is taken by a long-term, or by a standard,
    environment. *)
Definition absent_state : State sample_client :=
  sample_state (d_SetId sample_config (sample_id "rg1" "env1")) ∅.

Definition long_term_state : State sample_client :=
  sample_state sample_config {[ ("rg1", "env1") := sample_long_term ]}.

Definition standard_state : State sample_client :=
  sample_state sample_config {[ ("rg1", "env1") := sample_standard ]}.

(** ** The importer and further sample instances *)

(** The function handed to [ValidateResourceIDPriorToImport]: the error of
    the ID parser, nil when the ID parses. *)
Definition validateImportID (helpers : Helpers) (id : string) : option error :=
  match TimeSeriesInsightsEnvironmentID helpers id with
  | inl _ => None
  | inr err => Some err
  end.

(** The helpers with the import-protection feature switched off. *)
Definition without_import_protection (helpers : Helpers) : Helpers :=
  {| TimeSeriesInsightsEnvironmentID := TimeSeriesInsightsEnvironmentID helpers;
     ResponseWasNotFound := ResponseWasNotFound helpers;
     NormalizeLocation := NormalizeLocation helpers;
     tags_Expand := tags_Expand helpers;
     tags_FlattenAndSet := tags_FlattenAndSet helpers;
     ShouldResourcesBeImported := false |}.

(** The parameters the create-update handler sends for the resource data [d0]
    and the expanded SKU. *)
Definition request_parameters (helpers : Helpers) (d0 : ResourceData) (sku : Sku)
  : StandardEnvironmentCreateOrUpdateParameters :=
  {| param_Location := Some (NormalizeLocation helpers (d_Get d0 "location"));
     param_Tags := tags_Expand helpers (tags d0);
     param_Sku := Some sku;
     param_Properties :=
       Some {| StorageLimitExceededBehavior := d_Get d0 "storage_limited_exceeded_behavior";
               DataRetentionTime := Some (d_Get d0 "data_retention_time") |} |}.

(** A client that answers every request with a fixed response, whatever the
    remote state: for runs in which the service fails. *)
Record Script : Type := mkScript {
  get_response : EnvironmentResourceModel * option error;
  create_error : option error;
  wait_error : option error;
  delete_response : autorest_Response * option error
}.

Definition scripted_client (script : Script) : EnvironmentsClient :=
  {| Remote := unit;
     Future := unit;
     Get := fun _ _ _ m => (get_response script, m);
     CreateOrUpdate := fun _ _ _ m => (tt, create_error script, m);
     WaitForCompletionRef := fun _ m => (wait_error script, m);
     Delete := fun _ _ m => (delete_response script, m) |}.

Definition server_error : error := SdkError "InternalServerError".

Definition sample_server_error : EnvironmentResourceModel * option error :=
  ({| Response := Some {| StatusCode := 500 |}; Value := None |}, Some server_error).

Definition sample_found (value : BasicEnvironmentResource)
  : EnvironmentResourceModel * option error :=
  ({| Response := Some {| StatusCode := 200 |}; Value := Some value |}, None).

Definition sample_script (get : EnvironmentResourceModel * option error)
    (create wait : option error) : Script :=
  {| get_response := get; create_error := create; wait_error := wait;
     delete_response := (Some {| StatusCode := 500 |}, Some server_error) |}.

Definition scripted_state (script : Script) (d0 : ResourceData)
  : State (scripted_client script) :=
  @mkState (scripted_client script) d0 tt [].

Definition sample_without_id : BasicEnvironmentResource :=
  IsStandardEnvironmentResource
    {| std_Properties := None; std_Sku := None; std_ID := None;
       std_Name := Some "env1"; std_Location := None; std_Tags := ∅ |}.

Definition sample_full : StandardEnvironmentResource :=
  {| std_Properties := Some {| StorageLimitExceededBehavior := "PauseIngress";
                               DataRetentionTime := Some "P30D" |};
     std_Sku := Some {| Name := S2; Capacity := Some 3 |};
     std_ID := Some (sample_id "rg1" "env1");
     std_Name := Some "env1";
     std_Location := Some "westeurope";
     std_Tags := ∅ |}.

Definition sample_existing : ResourceData :=
  d_SetId sample_config (sample_id "rg1" "env1").

(** Scripts in which the CreateOrUpdate fails, the wait fails, and the
    read-back finds a resource without an ID; and a state whose SKU name has
    one part only. *)
Definition create_fails : Script := sample_script sample_not_found (Some server_error) None.
Definition wait_fails : Script := sample_script sample_not_found None (Some server_error).
Definition read_back_without_id : Script :=
  sample_script (sample_found sample_without_id) None None.

Definition bad_sku_state : State sample_client :=
  sample_state (d_Set sample_config "sku_name" (Some "S1")) ∅.

(** * Verification *)

(** ** Splitting and decimal conversion *)

Lemma Split_nonempty s sep : Split s sep <> [].
Proof.
  induction s as [|c rest IH]; simpl; [discriminate|].
  destruct (Ascii.eqb c sep); [discriminate|].
  destruct (Split rest sep); [contradiction | discriminate].
Qed.

Lemma Split_no_sep s sep : has_byte sep s = false -> Split s sep = [s].
Proof.
  induction s as [|c rest IH]; simpl; intros H; [reflexivity|].
  apply orb_false_iff in H as [Hc Hrest].
  rewrite Hc, (IH Hrest). reflexivity.
Qed.

Lemma Split_app_sep s1 s2 sep :
  has_byte sep s1 = false ->
  Split (s1 +:+ String sep s2) sep = s1 :: Split s2 sep.
Proof.
  induction s1 as [|c rest IH]; simpl; intros H.
  - rewrite Ascii.eqb_refl. reflexivity.
  - apply orb_false_iff in H as [Hc Hrest].
    rewrite Hc, (IH Hrest). reflexivity.
Qed.

Lemma parse_digits_uint_acc d : forall acc,
  parse_digits (NilEmpty.string_of_uint d) (Z.pos acc) = Some (Z.pos (Pos.of_uint_acc d acc)).
Proof.
  induction d; intros acc; simpl; [reflexivity | ..];
    unfold digit_of; simpl;
    match goal with
    | |- parse_digits _ (?m + ?k) = Some (Z.pos (Pos.of_uint_acc _ ?a)) =>
        let k' := eval vm_compute in k in
        change k with k'; replace (m + k') with (Z.pos a) by lia
    end; apply IHd.
Qed.

Lemma parse_digits_uint d :
  parse_digits (NilEmpty.string_of_uint d) 0 = Some (Z.of_N (Pos.of_uint d)).
Proof.
  induction d; simpl; [reflexivity | exact IHd | ..];
    unfold digit_of; simpl;
    match goal with
    | |- parse_digits _ ?n = _ =>
        let n' := eval vm_compute in n in change n with n'
    end; apply parse_digits_uint_acc.
Qed.

Lemma string_of_uint_head d :
  d <> Decimal.Nil ->
  exists c rest, NilEmpty.string_of_uint d = String c rest
                 /\ Ascii.eqb c "-" = false /\ Ascii.eqb c "+" = false.
Proof.
  destruct d; intros H; [contradiction | ..]; simpl; eauto.
Qed.

Lemma string_of_uint_no_underscore d :
  has_byte "_" (NilEmpty.string_of_uint d) = false.
Proof. induction d; simpl; auto. Qed.

Lemma NilZero_string_of_uint_nonnil d :
  d <> Decimal.Nil -> NilZero.string_of_uint d = NilEmpty.string_of_uint d.
Proof. destruct d; intros H; [contradiction | ..]; reflexivity. Qed.

Lemma in_int_true n : - 2 ^ 63 <= n < 2 ^ 63 -> in_int n = true.
Proof.
  intros H. unfold in_int, intSize. apply andb_true_iff.
  split; [apply Z.leb_le | apply Z.ltb_lt]; simpl; lia.
Qed.

Lemma Atoi_FormatInt n : - 2 ^ 63 <= n < 2 ^ 63 -> Atoi (FormatInt n) = inl n.
Proof.
  intros Hn. unfold FormatInt.
  destruct n as [|p|p]; [reflexivity | ..]; simpl Z.to_int; simpl NilZero.string_of_int;
    rewrite (NilZero_string_of_uint_nonnil _ (Unsigned.to_uint_nonnil p));
    pose proof (parse_digits_uint (Pos.to_uint p)) as Hp;
    rewrite Unsigned.of_to in Hp; simpl Z.of_N in Hp;
    destruct (string_of_uint_head _ (Unsigned.to_uint_nonnil p)) as (c & rest & Hs & Hm & Hpl).
  - rewrite Hs in *. unfold Atoi. rewrite Hm, Hpl. simpl orb. cbv iota. rewrite Hp.
    rewrite (in_int_true _ Hn). reflexivity.
  - rewrite Hs in *. unfold Atoi. rewrite Ascii.eqb_refl. simpl orb. cbv iota. rewrite Hp.
    rewrite (in_int_true (- Z.pos p)) by exact Hn. reflexivity.
Qed.

Lemma FormatInt_no_underscore n : has_byte "_" (FormatInt n) = false.
Proof.
  unfold FormatInt. destruct n as [|p|p]; [reflexivity | ..]; simpl Z.to_int;
    simpl NilZero.string_of_int.
  - rewrite (NilZero_string_of_uint_nonnil _ (Unsigned.to_uint_nonnil p)).
    apply string_of_uint_no_underscore.
  - change (has_byte "_" (NilZero.string_of_uint (Pos.to_uint p)) = false).
    rewrite (NilZero_string_of_uint_nonnil _ (Unsigned.to_uint_nonnil p)).
    apply string_of_uint_no_underscore.
Qed.

(** ** The conversion to int32 *)

Lemma int32_id n : is_int32 n -> int32 n = n.
Proof.
  unfold is_int32, int32. intros H.
  rewrite Z.mod_small by lia. lia.
Qed.

Lemma int32_range n : is_int32 (int32 n).
Proof.
  unfold is_int32, int32.
  pose proof (Z.mod_pos_bound (n + 2 ^ 31) (2 ^ 32) ltac:(lia)). lia.
Qed.

Lemma int32_congruent n : int32 n mod 2 ^ 32 = n mod 2 ^ 32.
Proof.
  unfold int32.
  rewrite Zminus_mod_idemp_l.
  f_equal. lia.
Qed.

(** ** SKU strings of two parts *)

(** Expanding [tier_capacity] for a known tier and a capacity string without
    an underscore comes down to [Atoi] on the capacity. *)
Lemma expand_two_parts tier capacity :
  tier = S1 \/ tier = S2 ->
  has_byte "_" capacity = false ->
  expandEnvironmentSkuName (tier +:+ "_" +:+ capacity) =
    match Atoi capacity with
    | inl n => Ok {| Name := tier; Capacity := Some (int32 n) |}
    | inr _ => Panic (IndexOutOfRange 2 2)
    end.
Proof.
  intros Htier Hcap. unfold expandEnvironmentSkuName.
  assert (Hsplit : Split (tier +:+ "_" +:+ capacity) "_" = [tier; capacity]).
  { change (tier +:+ "_" +:+ capacity) with (tier +:+ String "_" capacity).
    rewrite Split_app_sep by (destruct Htier; subst; reflexivity).
    rewrite (Split_no_sep _ _ Hcap). reflexivity. }
  rewrite Hsplit. cbn [length Nat.eqb negb index nth_error go_bind].
  destruct Htier; subst tier; cbn; destruct (Atoi capacity); reflexivity.
Qed.


(** ** The name validator *)

Lemma MatchString_Empty s : MatchString Empty s = false.
Proof. induction s; simpl; auto. Qed.

Lemma MatchString_Seq_Empty r s : MatchString (Seq Empty r) s = false.
Proof. induction s; simpl; auto. Qed.

Lemma MatchString_Alt r1 r2 s :
  MatchString (Alt r1 r2) s = MatchString r1 s || MatchString r2 s.
Proof. revert r1 r2. induction s; intros r1 r2; simpl; auto. Qed.

Lemma MatchString_Seq_Eps r s : MatchString (Seq Eps r) s = MatchString r s.
Proof.
  destruct s as [|c rest]; simpl; [reflexivity|].
  rewrite MatchString_Alt, MatchString_Seq_Empty. reflexivity.
Qed.

Lemma MatchString_Star_Class cls s :
  MatchString (Star (Class cls)) s = forallb cls (list_ascii_of_string s).
Proof.
  induction s as [|c rest IH]; simpl; [reflexivity|].
  destruct (cls c); simpl.
  - rewrite MatchString_Seq_Eps. exact IH.
  - apply MatchString_Seq_Empty.
Qed.

Lemma MatchString_Plus_Class cls s :
  MatchString (Plus (Class cls)) s =
  negb (Nat.eqb (String.length s) 0) && forallb cls (list_ascii_of_string s).
Proof.
  destruct s as [|c rest]; simpl; [reflexivity|].
  destruct (cls c); simpl.
  - rewrite MatchString_Seq_Eps. apply MatchString_Star_Class.
  - apply MatchString_Seq_Empty.
Qed.

(** What the [name] validator accepts: the non-empty strings over the class,
    of any length. *)
Lemma validate_name_accepts v :
  validate_name v = [] <->
  v <> "" /\ forallb name_class (list_ascii_of_string v) = true.
Proof.
  unfold validate_name, StringMatch, name_regexp.
  rewrite MatchString_Plus_Class.
  destruct v as [|c rest]; simpl.
  - split; [discriminate | intros [H _]; contradiction].
  - destruct (name_class c && forallb name_class (list_ascii_of_string rest)); simpl.
    + split; [intros _; split; [discriminate | reflexivity] | reflexivity].
    + split; [discriminate | intros [_ H]; discriminate].
Qed.

(** C3: the validator of [name] accepts a name of 91 characters, which the
    pattern with the bound of 90 characters rejects; the validator's regular
    expression has no upper bound on the length. *)
Theorem C3_name_validator_has_no_length_bound :
  String.length long_name = 91%nat /\
  validate_name long_name = [] /\
  spec_name_pattern long_name = false.
Proof. repeat split; vm_compute; reflexivity. Qed.

(** ** Expanding and flattening SKU names *)

(** C1: on "S1_x" the capacity does not parse and building the error reads
    [parts[2]] of a two-element slice: the call panics instead of returning
    the capacity error. *)
Theorem C1_unparsable_capacity_panics :
  expandEnvironmentSkuName "S1_x" = Panic (IndexOutOfRange 2 2).
Proof. reflexivity. Qed.

(** No input makes [expandEnvironmentSkuName] return the capacity error. *)
Lemma expand_never_capacity_error skuName a b :
  expandEnvironmentSkuName skuName <> Err (ErrCannotConvertCapacity a b).
Proof.
  unfold expandEnvironmentSkuName.
  destruct (Split skuName "_") as [|p0 [|p1 [|p2 rest]]]; cbn; try discriminate.
  destruct (String.eqb p0 "S1"); [|destruct (String.eqb p0 "S2")]; cbn;
    try destruct (Atoi p1); cbn; discriminate.
Qed.

(** C8: a string that does not split on the underscore into exactly two parts
    is rejected with the wrong-number-of-parts error, and no SKU. *)
Theorem C8_wrong_number_of_parts (skuName : string) :
  length (Split skuName "_") <> 2%nat ->
  expandEnvironmentSkuName skuName =
    Err (ErrWrongNumberOfParts skuName (Z.of_nat (length (Split skuName "_")))).
Proof.
  intros H. unfold expandEnvironmentSkuName.
  destruct (Nat.eqb_spec (length (Split skuName "_")) 2); [contradiction | reflexivity].
Qed.

Lemma C8_wrong_number_of_parts_witness :
  expandEnvironmentSkuName "S1_2_3" = Err (ErrWrongNumberOfParts "S1_2_3" 3).
Proof. apply (C8_wrong_number_of_parts "S1_2_3"). simpl. lia. Defined.

(** C9: [flattenEnvironmentSkuName] returns a string for every input, and the
    empty string when the SKU or its capacity is nil. *)
Theorem C9_flatten_total :
  flattenEnvironmentSkuName None = Ok "" /\
  (forall name, flattenEnvironmentSkuName (Some (mkSku name None)) = Ok "") /\
  (forall input, exists s, flattenEnvironmentSkuName input = Ok s).
Proof.
  repeat split; try reflexivity.
  intros [[name [capacity|]]|]; cbn; eauto.
Qed.

Lemma flatten_present tier capacity :
  flattenEnvironmentSkuName (Some (mkSku tier (Some capacity))) =
  Ok (tier +:+ "_" +:+ FormatInt capacity).
Proof. reflexivity. Qed.

Lemma expand_format tier n :
  tier = S1 \/ tier = S2 ->
  - 2 ^ 63 <= n < 2 ^ 63 ->
  expandEnvironmentSkuName (tier +:+ "_" +:+ FormatInt n) =
  Ok {| Name := tier; Capacity := Some (int32 n) |}.
Proof.
  intros Htier Hn.
  rewrite (expand_two_parts _ _ Htier (FormatInt_no_underscore n)).
  rewrite (Atoi_FormatInt _ Hn). reflexivity.
Qed.

Lemma enumerated_sku_set_eq : enumerated_sku_set = sku_names.
Proof. vm_compute. reflexivity. Qed.

Lemma expand_enumerated s :
  In s sku_names ->
  exists sku, expandEnvironmentSkuName s = Ok sku /\
              flattenEnvironmentSkuName (Some sku) = Ok s.
Proof.
  unfold sku_names. simpl.
  intros H; repeat (destruct H as [<- | H]; [eexists; split; vm_compute; reflexivity |]).
  contradiction.
Qed.

(** C2: formatting a SKU with tier S1 or S2 and capacity 1 to 10 and parsing
    the result gives the SKU back, and parsing then formatting a string of
    the enumerated set gives the string back. *)
Theorem C2_sku_round_trip (tier : SkuName) (capacity : Z) (s : string) :
  tier = S1 \/ tier = S2 ->
  1 <= capacity <= 10 ->
  In s enumerated_sku_set ->
  (exists formatted,
      flattenEnvironmentSkuName (Some (mkSku tier (Some capacity))) = Ok formatted /\
      expandEnvironmentSkuName formatted = Ok (mkSku tier (Some capacity))) /\
  (exists sku,
      expandEnvironmentSkuName s = Ok sku /\
      flattenEnvironmentSkuName (Some sku) = Ok s).
Proof.
  intros Htier Hcap Hs. split.
  - eexists. split; [apply flatten_present|].
    rewrite (expand_format _ _ Htier) by lia.
    rewrite int32_id by (unfold is_int32; lia). reflexivity.
  - rewrite enumerated_sku_set_eq in Hs. apply expand_enumerated, Hs.
Qed.

Lemma C2_sku_round_trip_witness :
  (exists formatted,
      flattenEnvironmentSkuName (Some (mkSku S2 (Some 10))) = Ok formatted /\
      expandEnvironmentSkuName formatted = Ok (mkSku S2 (Some 10))) /\
  (exists sku,
      expandEnvironmentSkuName "S1_7" = Ok sku /\
      flattenEnvironmentSkuName (Some sku) = Ok "S1_7").
Proof.
  apply (C2_sku_round_trip S2 10 "S1_7");
    [right; reflexivity | lia | vm_compute; tauto].
Defined.

Lemma StringInSlice_accepts valid v k :
  StringInSlice valid v k = [] <-> In v valid.
Proof.
  unfold StringInSlice.
  destruct (existsb (String.eqb v) valid) eqn:E.
  - split; [intros _ | reflexivity].
    apply existsb_exists in E as (x & Hx & Heq).
    apply String.eqb_eq in Heq. subst. exact Hx.
  - split; [discriminate | intros Hin].
    assert (existsb (String.eqb v) valid = true) as E'.
    { apply existsb_exists. exists v. split; [exact Hin | apply String.eqb_refl]. }
    congruence.
Qed.

(** C4: a SKU string passes the schema validator and expands without error
    exactly when it is one of S1 or S2, an underscore and a capacity from 1
    to 10; "S1_11" and "S1_0" are not accepted. *)
Theorem C4_accepted_sku_strings :
  (forall s, sku_accepted s = true <-> In s enumerated_sku_set) /\
  sku_accepted "S1_11" = false /\
  sku_accepted "S1_0" = false.
Proof.
  split; [| split; reflexivity].
  intros s. rewrite enumerated_sku_set_eq. unfold sku_accepted. split.
  - destruct (validate_sku_name s) eqn:E; [| discriminate].
    intros _. apply (StringInSlice_accepts sku_names s "sku_name"), E.
  - intros Hin. unfold validate_sku_name.
    rewrite (proj2 (StringInSlice_accepts sku_names s "sku_name") Hin).
    destruct (expand_enumerated s Hin) as (sku & -> & _). reflexivity.
Qed.

(** C10: for a tier S1 or S2 and a capacity that fits 64 bits but not 32, the
    SKU string expands without error and the stored capacity is the number
    reduced modulo 2^32 to the signed 32-bit range. *)
Theorem C10_capacity_wraps_to_int32 (tier : SkuName) (n : Z) :
  tier = S1 \/ tier = S2 ->
  - 2 ^ 63 <= n < 2 ^ 63 ->
  ~ is_int32 n ->
  expandEnvironmentSkuName (tier +:+ "_" +:+ FormatInt n) =
    Ok (mkSku tier (Some (int32 n))) /\
  is_int32 (int32 n) /\
  int32 n mod 2 ^ 32 = n mod 2 ^ 32.
Proof.
  intros Htier Hn _.
  split; [apply expand_format; assumption |].
  split; [apply int32_range | apply int32_congruent].
Qed.

Lemma C10_capacity_wraps_to_int32_witness :
  expandEnvironmentSkuName "S1_4294967297" = Ok (mkSku S1 (Some 1)).
Proof.
  apply (C10_capacity_wraps_to_int32 S1 4294967297);
    [left; reflexivity | lia | unfold is_int32; lia].
Defined.

Lemma parse_digits_no_underscore s : forall acc n,
  parse_digits s acc = Some n -> has_byte "_" s = false.
Proof.
  induction s as [|c rest IH]; intros acc n H; [reflexivity|].
  cbn [parse_digits] in H. cbn [has_byte].
  destruct (digit_of c) as [dg|] eqn:E; [|discriminate].
  rewrite (IH _ _ H), orb_false_r.
  destruct (Ascii.eqb_spec c "_") as [->|]; [vm_compute in E; discriminate | reflexivity].
Qed.

Lemma Atoi_no_underscore s n : Atoi s = inl n -> has_byte "_" s = false.
Proof.
  destruct s as [|c rest]; [discriminate|].
  unfold Atoi.
  destruct (Ascii.eqb c "-" || Ascii.eqb c "+") eqn:Hsign.
  - assert (Ascii.eqb c "_" = false) as Hc.
    { apply orb_true_iff in Hsign as [H | H]; apply Ascii.eqb_eq in H; subst; reflexivity. }
    cbn [has_byte]. rewrite Hc, orb_false_l.
    destruct rest as [|c' rest']; [discriminate|].
    destruct (parse_digits (String c' rest') 0) eqn:E; [|discriminate].
    intros _. eapply parse_digits_no_underscore, E.
  - destruct (parse_digits (String c rest) 0) eqn:E; [|discriminate].
    intros _. eapply parse_digits_no_underscore, E.
Qed.

(** Whatever decimal spelling [Atoi] accepts for the capacity, the SKU
    carries its value converted to [int32]. *)
Lemma expand_parsed_capacity tier capacity n :
  tier = S1 \/ tier = S2 ->
  Atoi capacity = inl n ->
  expandEnvironmentSkuName (tier +:+ "_" +:+ capacity) =
    Ok {| Name := tier; Capacity := Some (int32 n) |}.
Proof.
  intros Htier Hn.
  rewrite (expand_two_parts _ _ Htier (Atoi_no_underscore _ _ Hn)), Hn.
  reflexivity.
Qed.

(** With a known tier and a capacity that [Atoi] rejects, the call panics. *)
Lemma expand_rejected_capacity_panics tier capacity e :
  tier = S1 \/ tier = S2 ->
  has_byte "_" capacity = false ->
  Atoi capacity = inr e ->
  expandEnvironmentSkuName (tier +:+ "_" +:+ capacity) = Panic (IndexOutOfRange 2 2).
Proof.
  intros Htier Hcap He.
  rewrite (expand_two_parts _ _ Htier Hcap), He. reflexivity.
Qed.

Example Atoi_signs :
  Atoi "+5" = inl 5 /\ Atoi "-12" = inl (-12) /\ Atoi "007" = inl 7.
Proof. repeat split. Qed.

Example Atoi_errors :
  Atoi "" = inr ErrSyntax /\ Atoi "-" = inr ErrSyntax /\ Atoi "1_0" = inr ErrSyntax /\
  Atoi "x" = inr ErrSyntax /\ Atoi "9223372036854775808" = inr ErrRange /\
  Atoi "-9223372036854775808" = inl (- 9223372036854775808).
Proof. repeat split. Qed.

Example Split_examples :
  Split "" "_" = [""] /\ Split "S1" "_" = ["S1"] /\
  Split "S1_2_3" "_" = ["S1"; "2"; "3"] /\ Split "_a_" "_" = [""; "a"; ""].
Proof. repeat split. Qed.

Example expand_examples :
  expandEnvironmentSkuName "S1" = Err (ErrWrongNumberOfParts "S1" 1) /\
  expandEnvironmentSkuName "S3_1" = Err (ErrUnknownSkuTier "S3_1" "S3") /\
  expandEnvironmentSkuName "S2_10" = Ok (mkSku S2 (Some 10)) /\
  expandEnvironmentSkuName "S1_11" = Ok (mkSku S1 (Some 11)) /\
  expandEnvironmentSkuName "S1_+4294967297" = Ok (mkSku S1 (Some 1)) /\
  expandEnvironmentSkuName "S1_2147483648" = Ok (mkSku S1 (Some (- 2147483648))).
Proof. repeat split. Qed.

(** ** The handlers *)

(** C5: when the ID parses and the Get for it comes back without a resource
    (an error or a nil value) and with a not-found response, the read handler
    clears the ID and returns no error. *)
Theorem C5_read_not_found_clears_id
    (helpers : Helpers) (client : EnvironmentsClient) (st : State client)
    (id : TimeSeriesInsightsEnvironmentId) (resp : EnvironmentResourceModel)
    (err : option error) (remote' : Remote client) :
  TimeSeriesInsightsEnvironmentID helpers (Id (d st)) = inl id ->
  Get client (ResourceGroup id) (EnvironmentName id) "" (remote st) = (resp, err, remote') ->
  err <> None \/ Value resp = None ->
  ResponseWasNotFound helpers (Response resp) = true ->
  resourceArmTimeSeriesInsightsEnvironmentRead helpers client st =
    (Ok tt,
     mkState (d_SetId (d st) "") remote'
             (requests st ++ [GetRequest (ResourceGroup id) (EnvironmentName id)])).
Proof.
  intros Hid Hget Habsent Hnf.
  unfold resourceArmTimeSeriesInsightsEnvironmentRead, bind, get_d.
  rewrite Hid. unfold client_Get. rewrite Hget.
  assert (negb (is_nil err) || is_nil (Value resp) = true) as ->.
  { destruct Habsent as [H | H].
    - destruct err; [reflexivity | contradiction].
    - rewrite H. apply orb_true_r. }
  rewrite Hnf. reflexivity.
Qed.

Lemma C5_read_not_found_clears_id_witness :
  resourceArmTimeSeriesInsightsEnvironmentRead (sample_helpers true) sample_client absent_state =
    (Ok tt,
     mkState (d_SetId (d absent_state) "") (∅ : Remote sample_client)
             (requests absent_state ++ [GetRequest "rg1" "env1"])).
Proof.
  apply (C5_read_not_found_clears_id (sample_helpers true) sample_client absent_state
           (mkEnvironmentId "rg1" "env1") (fst sample_not_found) (snd sample_not_found));
    [reflexivity | reflexivity | left; discriminate | reflexivity].
Defined.

(** C6: when the ID parses and the Delete for it comes back with a not-found
    response, the delete handler returns no error. *)
Theorem C6_delete_not_found_succeeds
    (helpers : Helpers) (client : EnvironmentsClient) (st : State client)
    (id : TimeSeriesInsightsEnvironmentId) (response : autorest_Response)
    (err : option error) (remote' : Remote client) :
  TimeSeriesInsightsEnvironmentID helpers (Id (d st)) = inl id ->
  Delete client (ResourceGroup id) (EnvironmentName id) (remote st) = (response, err, remote') ->
  ResponseWasNotFound helpers response = true ->
  resourceArmTimeSeriesInsightsEnvironmentDelete helpers client st =
    (Ok tt,
     mkState (d st) remote'
             (requests st ++ [DeleteRequest (ResourceGroup id) (EnvironmentName id)])).
Proof.
  intros Hid Hdel Hnf.
  unfold resourceArmTimeSeriesInsightsEnvironmentDelete, bind, get_d.
  rewrite Hid. unfold client_Delete. rewrite Hdel.
  destruct err; [rewrite Hnf |]; reflexivity.
Qed.

Lemma C6_delete_not_found_succeeds_witness :
  resourceArmTimeSeriesInsightsEnvironmentDelete (sample_helpers true) sample_client absent_state =
    (Ok tt,
     mkState (d absent_state) (∅ : Remote sample_client)
             (requests absent_state ++ [DeleteRequest "rg1" "env1"])).
Proof.
  apply (C6_delete_not_found_succeeds (sample_helpers true) sample_client absent_state
           (mkEnvironmentId "rg1" "env1") (Some (mkResponse 404))
           (Some (SdkError "ResourceNotFound")));
    reflexivity.
Defined.

Lemma validated_sku_expands v :
  validate_sku_name v = [] -> exists sku, expandEnvironmentSkuName v = Ok sku.
Proof.
  intros H. apply (StringInSlice_accepts sku_names v "sku_name") in H.
  destruct (expand_enumerated v H) as (sku & Hsku & _). eauto.
Qed.

(** C7, as the code has it: with import protection on, a new resource and a
    validated [sku_name], when the pre-flight Get succeeds and returns a
    resource with a non-empty ID, the handler fails after that one Get, with
    no further request: with the import-as-exists error naming the ID when the
    resource is a standard environment, and with the not-a-standard-environment
    error otherwise. *)
Theorem C7_existing_resource_stops_create
    (helpers : Helpers) (client : EnvironmentsClient) (st : State client)
    (existing : EnvironmentResourceModel) (remote' : Remote client)
    (value : BasicEnvironmentResource) (id : string) :
  ShouldResourcesBeImported helpers = true ->
  IsNewResource (d st) = true ->
  validate_sku_name (d_Get (d st) "sku_name") = [] ->
  Get client (d_Get (d st) "resource_group_name") (d_Get (d st) "name") "" (remote st)
    = (existing, None, remote') ->
  Value existing = Some value ->
  resource_ID value = Some id ->
  id <> "" ->
  resourceArmTimeSeriesInsightsEnvironmentCreateUpdate helpers client st =
    (Err (match AsStandardEnvironmentResource value with
          | Some _ => ImportAsExistsError "azurerm_time_series_insights_environment" id
          | None => ErrExistingNotStandard (d_Get (d st) "name")
                                           (d_Get (d st) "resource_group_name")
          end),
     mkState (d st) remote'
             (requests st ++ [GetRequest (d_Get (d st) "resource_group_name")
                                         (d_Get (d st) "name")])).
Proof.
  intros Himport Hnew Hsku Hget Hvalue Hid Hne.
  destruct (validated_sku_expands _ Hsku) as (sku & Hexpand).
  unfold resourceArmTimeSeriesInsightsEnvironmentCreateUpdate, bind, get_d, lift.
  rewrite Hexpand. unfold check_existing, bind, get_d.
  cbn [d]. rewrite Himport, Hnew. cbn [andb].
  unfold client_Get. cbn [remote requests d]. rewrite Hget. cbn [ret].
  rewrite Hvalue.
  destruct value as [r | r | r]; cbn [AsStandardEnvironmentResource]; try reflexivity.
  cbn [resource_ID] in Hid. rewrite Hid.
  destruct (String.eqb_spec id ""); [contradiction | reflexivity].
Qed.

Lemma C7_existing_resource_stops_create_witness :
  resourceArmTimeSeriesInsightsEnvironmentCreateUpdate (sample_helpers true) sample_client
      standard_state =
    (Err (ImportAsExistsError "azurerm_time_series_insights_environment"
            (sample_id "rg1" "env1")),
     mkState (d standard_state) (remote standard_state) [GetRequest "rg1" "env1"]).
Proof.
  apply (C7_existing_resource_stops_create (sample_helpers true) sample_client standard_state
           (mkModel (Some (mkResponse 200)) (Some sample_standard))
           (remote standard_state) sample_standard (sample_id "rg1" "env1"));
    [reflexivity | reflexivity | reflexivity | reflexivity | reflexivity | reflexivity
    | discriminate].
Defined.

(** C7, as stated, fails: the pre-flight Get finds a long-term environment
    with a non-empty ID, and the handler fails with the
    not-a-standard-environment error, not with the import-as-exists error. *)
Lemma C7_long_term_environment_counterexample :
  ShouldResourcesBeImported (sample_helpers true) = true /\
  IsNewResource (d long_term_state) = true /\
  Id (d long_term_state) = "" /\
  Get sample_client "rg1" "env1" "" (remote long_term_state)
    = (mkModel (Some (mkResponse 200)) (Some sample_long_term), None,
       remote long_term_state) /\
  resource_ID sample_long_term = Some (sample_id "rg1" "env1") /\
  sample_id "rg1" "env1" <> "" /\
  fst (resourceArmTimeSeriesInsightsEnvironmentCreateUpdate (sample_helpers true)
         sample_client long_term_state)
    = Err (ErrExistingNotStandard "env1" "rg1") /\
  fst (resourceArmTimeSeriesInsightsEnvironmentCreateUpdate (sample_helpers true)
         sample_client long_term_state)
    <> Err (ImportAsExistsError "azurerm_time_series_insights_environment"
              (sample_id "rg1" "env1")).
Proof.
  repeat split; try reflexivity; discriminate.
Qed.

(** End to end on the in-memory service: creating the sample configuration
    sends the SKU S1 with capacity 5, waits, reads back, stores the ID, and
    the state then holds [sku_name] "S1_5". *)
Example create_then_read_sample :
  let run := resourceArmTimeSeriesInsightsEnvironmentCreateUpdate (sample_helpers true)
               sample_client (sample_state sample_config ∅) in
  fst run = Ok tt /\
  Id (d (snd run)) = sample_id "rg1" "env1" /\
  d_Get (d (snd run)) "sku_name" = "S1_5" /\
  map mutating (requests (snd run)) = [false; true; false; false; false].
Proof. vm_compute. repeat split. Qed.

(** * Further properties of the code *)

(** ** SKU names *)

(** Whenever [expandEnvironmentSkuName] returns a SKU, the input had exactly
    two parts, the tier is the first part and is S1 or S2, and the capacity is
    present: the second part as [Atoi] reads it, converted to the int32
    range. *)
Theorem expand_result_shape (skuName : string) (sku : Sku) :
  expandEnvironmentSkuName skuName = Ok sku ->
  exists capacityText n,
    Split skuName "_" = [Name sku; capacityText] /\
    (Name sku = S1 \/ Name sku = S2) /\
    Atoi capacityText = inl n /\
    Capacity sku = Some (int32 n) /\
    is_int32 (int32 n).
Proof.
  unfold expandEnvironmentSkuName.
  destruct (Split skuName "_") as [|p0 [|p1 [|p2 rest]]]; cbn; try discriminate.
  destruct (String.eqb_spec p0 "S1") as [-> | Hn1];
    [| destruct (String.eqb_spec p0 "S2") as [-> | Hn2]]; cbn; try discriminate;
    destruct (Atoi p1) as [n | e] eqn:Hatoi; cbn; try discriminate;
    intros [= <-]; exists p1, n; cbn;
    repeat split; auto using int32_range; apply int32_range.
Qed.

Lemma expand_result_shape_witness :
  exists capacityText n,
    Split "S2_-4294967295" "_" = [Name (mkSku S2 (Some 1)); capacityText] /\
    (Name (mkSku S2 (Some 1)) = S1 \/ Name (mkSku S2 (Some 1)) = S2) /\
    Atoi capacityText = inl n /\
    Capacity (mkSku S2 (Some 1)) = Some (int32 n) /\
    is_int32 (int32 n).
Proof. apply (expand_result_shape "S2_-4294967295" (mkSku S2 (Some 1))). reflexivity. Defined.

(** A two-part name whose first part is neither S1 nor S2 gets the
    unknown-tier error naming that part, whatever the second part is: the tier
    is looked at before the capacity. *)
Theorem expand_unknown_tier (skuName tier capacityText : string) :
  Split skuName "_" = [tier; capacityText] ->
  tier <> "S1" ->
  tier <> "S2" ->
  expandEnvironmentSkuName skuName = Err (ErrUnknownSkuTier skuName tier).
Proof.
  intros Hsplit H1 H2. unfold expandEnvironmentSkuName. rewrite Hsplit. cbn.
  destruct (String.eqb_spec tier "S1"); [contradiction|].
  destruct (String.eqb_spec tier "S2"); [contradiction|]. reflexivity.
Qed.

Lemma expand_unknown_tier_witness :
  expandEnvironmentSkuName "s1_x" = Err (ErrUnknownSkuTier "s1_x" "s1").
Proof.
  apply (expand_unknown_tier "s1_x" "s1" "x"); [reflexivity | discriminate | discriminate].
Defined.

Lemma expand_rejected_capacity_panics_witness :
  expandEnvironmentSkuName ("S2" +:+ "_" +:+ "9223372036854775808")
  = Panic (IndexOutOfRange 2 2).
Proof.
  apply (expand_rejected_capacity_panics "S2" "9223372036854775808" ErrRange);
    [right; reflexivity | reflexivity | reflexivity].
Defined.

(** Formatting then expanding gives the SKU back for every capacity of the
    int32 range (zero and negative ones too), with tier S1 or S2. *)
Theorem flatten_expand_int32 (tier : SkuName) (capacity : Z) :
  tier = S1 \/ tier = S2 ->
  is_int32 capacity ->
  exists formatted,
    flattenEnvironmentSkuName (Some (mkSku tier (Some capacity))) = Ok formatted /\
    expandEnvironmentSkuName formatted = Ok (mkSku tier (Some capacity)).
Proof.
  intros Htier Hcap. eexists. split; [apply flatten_present|].
  rewrite (expand_format _ _ Htier) by (unfold is_int32 in Hcap; lia).
  rewrite (int32_id _ Hcap). reflexivity.
Qed.

Lemma flatten_expand_int32_witness :
  exists formatted,
    flattenEnvironmentSkuName (Some (mkSku S1 (Some (- 2147483648)))) = Ok formatted /\
    expandEnvironmentSkuName formatted = Ok (mkSku S1 (Some (- 2147483648))).
Proof.
  apply (flatten_expand_int32 S1 (- 2147483648));
    [left; reflexivity | unfold is_int32; lia].
Defined.

Lemma Sprintf_s_d_nonempty name capacity : Sprintf_s_d name capacity <> "".
Proof. unfold Sprintf_s_d. destruct name; discriminate. Qed.

(** [flattenEnvironmentSkuName] gives the empty string only for a nil SKU or
    a nil capacity; a SKU with a capacity always gives a non-empty string. *)
Theorem flatten_empty_iff (input : option Sku) :
  flattenEnvironmentSkuName input = Ok "" <->
  input = None \/ exists name, input = Some (mkSku name None).
Proof.
  destruct input as [[name [capacity|]]|]; cbn.
  - split.
    + intros [= H]. exfalso. exact (Sprintf_s_d_nonempty _ _ H).
    + intros [H | [n H]]; discriminate.
  - split; [intros _; right; eauto | reflexivity].
  - split; [intros _; left; reflexivity | reflexivity].
Qed.

(** Expanding accepts every spelling [Atoi] accepts (a plus sign, leading
    zeros) and flattening the result writes the capacity in plain decimal:
    the pair normalises a SKU name. *)
Theorem expand_flatten_normalises (tier : SkuName) (capacityText : string) (n : Z) :
  tier = S1 \/ tier = S2 ->
  Atoi capacityText = inl n ->
  exists sku,
    expandEnvironmentSkuName (tier +:+ "_" +:+ capacityText) = Ok sku /\
    flattenEnvironmentSkuName (Some sku) = Ok (tier +:+ "_" +:+ FormatInt (int32 n)).
Proof.
  intros Htier Hn. eexists. split; [apply (expand_parsed_capacity _ _ _ Htier Hn)|].
  reflexivity.
Qed.

Lemma expand_flatten_normalises_witness :
  exists sku,
    expandEnvironmentSkuName ("S1" +:+ "_" +:+ "+007") = Ok sku /\
    flattenEnvironmentSkuName (Some sku) = Ok ("S1" +:+ "_" +:+ FormatInt (int32 7)).
Proof.
  apply (expand_flatten_normalises "S1" "+007" 7); [left; reflexivity | reflexivity].
Defined.

(** Every value the [sku_name] validator accepts expands, without error or
    panic, to a SKU of tier S1 or S2 with a capacity from 1 to 10. *)
Theorem validated_sku_name_expands (v : string) :
  validate_sku_name v = [] ->
  exists tier capacity,
    expandEnvironmentSkuName v = Ok (mkSku tier (Some capacity)) /\
    (tier = S1 \/ tier = S2) /\
    1 <= capacity <= 10.
Proof.
  intros H. apply (StringInSlice_accepts sku_names v "sku_name") in H.
  unfold sku_names in H. simpl in H.
  repeat (destruct H as [<- | H];
          [eexists _, _; split; [vm_compute; reflexivity |];
           split; [first [left; reflexivity | right; reflexivity] | lia] |]).
  contradiction.
Qed.

Lemma validated_sku_name_expands_witness :
  exists tier capacity,
    expandEnvironmentSkuName "S2_10" = Ok (mkSku tier (Some capacity)) /\
    (tier = S1 \/ tier = S2) /\
    1 <= capacity <= 10.
Proof. apply (validated_sku_name_expands "S2_10"). reflexivity. Defined.

(** ** The read handler *)

Lemma flatten_returns input : exists s, flattenEnvironmentSkuName input = Ok s.
Proof. destruct input as [[name [capacity|]]|]; cbn; eauto. Qed.

Ltac unfold_handler :=
  unfold resourceArmTimeSeriesInsightsEnvironmentCreateUpdate,
    resourceArmTimeSeriesInsightsEnvironmentRead,
    resourceArmTimeSeriesInsightsEnvironmentDelete, check_existing,
    FlattenAndSet, client_Get, client_CreateOrUpdate, client_Delete,
    future_WaitForCompletionRef, bind, get_d, modify_d, lift, ret, fail.

(** The outcomes of the read handler, by cases on the ID and the Get. *)
Lemma read_outcome
    (helpers : Helpers) (client : EnvironmentsClient) (st : State client) :
  (forall p, fst (resourceArmTimeSeriesInsightsEnvironmentRead helpers client st) <> Panic p) /\
  match TimeSeriesInsightsEnvironmentID helpers (Id (d st)) with
  | inr _ =>
      requests (snd (resourceArmTimeSeriesInsightsEnvironmentRead helpers client st))
      = requests st
  | inl id =>
      requests (snd (resourceArmTimeSeriesInsightsEnvironmentRead helpers client st))
      = (requests st ++ [GetRequest (ResourceGroup id) (EnvironmentName id)])%list
  end.
Proof.
  unfold_handler.
  destruct (TimeSeriesInsightsEnvironmentID helpers (Id (d st))) as [id | e]; cbn;
    [| split; [discriminate | reflexivity]].
  destruct (Get client _ _ _ _) as [[resp err] remote']; cbn.
  destruct (negb (is_nil err) || is_nil (Value resp)) eqn:Hbranch.
  - destruct (ResponseWasNotFound helpers (Response resp)); cbn;
      (split; [discriminate | reflexivity]).
  - destruct (Value resp) as [value|]; [| destruct err; discriminate]. cbn.
    destruct (AsStandardEnvironmentResource value) as [environment|]; cbn;
      [| split; [discriminate | reflexivity]].
    destruct (flatten_returns (std_Sku environment)) as [s ->]. cbn.
    destruct (std_Location environment), (std_Properties environment); cbn;
      match goal with
      | |- context [tags_FlattenAndSet ?h ?x ?t] =>
          destruct (tags_FlattenAndSet h x t) as [[e|] d']
      end; cbn; (split; [discriminate | reflexivity]).
Qed.

(** The read handler never panics and never sends a mutating request: it
    sends nothing when the ID does not parse, and one Get otherwise. *)
Theorem read_sends_at_most_one_get
    (helpers : Helpers) (client : EnvironmentsClient) (st : State client) :
  (forall p, fst (resourceArmTimeSeriesInsightsEnvironmentRead helpers client st) <> Panic p) /\
  match TimeSeriesInsightsEnvironmentID helpers (Id (d st)) with
  | inr _ =>
      requests (snd (resourceArmTimeSeriesInsightsEnvironmentRead helpers client st))
      = requests st
  | inl id =>
      requests (snd (resourceArmTimeSeriesInsightsEnvironmentRead helpers client st))
      = (requests st ++ [GetRequest (ResourceGroup id) (EnvironmentName id)])%list
  end.
Proof. apply read_outcome. Qed.

(** With an ID that does not parse, the read handler returns the parser's
    error and leaves the state as it is. *)
Theorem read_unparsable_id
    (helpers : Helpers) (client : EnvironmentsClient) (st : State client) (e : error) :
  TimeSeriesInsightsEnvironmentID helpers (Id (d st)) = inr e ->
  resourceArmTimeSeriesInsightsEnvironmentRead helpers client st = (Err e, st).
Proof. intros H. unfold_handler. rewrite H. reflexivity. Qed.

Lemma read_unparsable_id_witness :
  resourceArmTimeSeriesInsightsEnvironmentRead (sample_helpers true) sample_client
    (sample_state sample_config ∅)
  = (Err (SdkError "malformed ID"), sample_state sample_config ∅).
Proof.
  apply (read_unparsable_id (sample_helpers true) sample_client
           (sample_state sample_config ∅) (SdkError "malformed ID")).
  reflexivity.
Defined.

(** When the Get comes back without a resource and the response is not a
    not-found one, the read handler returns the retrieving error carrying the
    Get's error (possibly nil) and keeps the resource data, ID included. *)
Theorem read_failure_keeps_id
    (helpers : Helpers) (client : EnvironmentsClient) (st : State client)
    (id : TimeSeriesInsightsEnvironmentId) (resp : EnvironmentResourceModel)
    (err : option error) (remote' : Remote client) :
  TimeSeriesInsightsEnvironmentID helpers (Id (d st)) = inl id ->
  Get client (ResourceGroup id) (EnvironmentName id) "" (remote st) = (resp, err, remote') ->
  err <> None \/ Value resp = None ->
  ResponseWasNotFound helpers (Response resp) = false ->
  resourceArmTimeSeriesInsightsEnvironmentRead helpers client st =
    (Err (ErrRetrieving (EnvironmentName id) (ResourceGroup id) err),
     mkState (d st) remote'
             (requests st ++ [GetRequest (ResourceGroup id) (EnvironmentName id)])).
Proof.
  intros Hid Hget Habsent Hnf. unfold_handler. rewrite Hid, Hget.
  assert (negb (is_nil err) || is_nil (Value resp) = true) as ->.
  { destruct Habsent as [H | H].
    - destruct err; [reflexivity | contradiction].
    - rewrite H. apply orb_true_r. }
  rewrite Hnf. reflexivity.
Qed.

Lemma read_failure_keeps_id_witness :
  resourceArmTimeSeriesInsightsEnvironmentRead (sample_helpers true)
    (scripted_client (sample_script sample_server_error None None))
    (scripted_state (sample_script sample_server_error None None) sample_existing)
  = (Err (ErrRetrieving "env1" "rg1" (Some server_error)),
     mkState sample_existing (tt : Remote (scripted_client _))
             ([] ++ [GetRequest "rg1" "env1"])).
Proof.
  apply (read_failure_keeps_id (sample_helpers true)
           (scripted_client (sample_script sample_server_error None None))
           (scripted_state (sample_script sample_server_error None None) sample_existing)
           (mkEnvironmentId "rg1" "env1") (fst sample_server_error) (Some server_error) tt);
    [reflexivity | reflexivity | left; discriminate | reflexivity].
Defined.

(** When the Get returns a resource that is not a standard environment, the
    read handler returns the not-a-standard-environment error and keeps the
    resource data. *)
Theorem read_rejects_other_kinds
    (helpers : Helpers) (client : EnvironmentsClient) (st : State client)
    (id : TimeSeriesInsightsEnvironmentId) (resp : EnvironmentResourceModel)
    (value : BasicEnvironmentResource) (remote' : Remote client) :
  TimeSeriesInsightsEnvironmentID helpers (Id (d st)) = inl id ->
  Get client (ResourceGroup id) (EnvironmentName id) "" (remote st) = (resp, None, remote') ->
  Value resp = Some value ->
  AsStandardEnvironmentResource value = None ->
  resourceArmTimeSeriesInsightsEnvironmentRead helpers client st =
    (Err (ErrExistingNotStandard (EnvironmentName id) (ResourceGroup id)),
     mkState (d st) remote'
             (requests st ++ [GetRequest (ResourceGroup id) (EnvironmentName id)])).
Proof.
  intros Hid Hget Hvalue Hkind. unfold_handler. rewrite Hid, Hget. cbn.
  rewrite Hvalue. cbn. rewrite Hkind. reflexivity.
Qed.

Lemma read_rejects_other_kinds_witness :
  resourceArmTimeSeriesInsightsEnvironmentRead (sample_helpers true) sample_client
    (sample_state sample_existing {[ ("rg1", "env1") := sample_long_term ]})
  = (Err (ErrExistingNotStandard "env1" "rg1"),
     mkState sample_existing
             ({[ ("rg1", "env1") := sample_long_term ]} : Remote sample_client)
             ([] ++ [GetRequest "rg1" "env1"])).
Proof.
  apply (read_rejects_other_kinds (sample_helpers true) sample_client
           (sample_state sample_existing {[ ("rg1", "env1") := sample_long_term ]})
           (mkEnvironmentId "rg1" "env1")
           (mkModel (Some (mkResponse 200)) (Some sample_long_term)) sample_long_term);
    reflexivity.
Defined.

(** Reading a standard environment: when the tags helper reports no error
    and leaves the ID and the string attributes alone, the read handler
    returns no error, keeps the ID, and the attributes then hold the resource
    group of the ID and the SKU written as [tier_capacity] (the empty string
    for a nil SKU or capacity). *)
Theorem read_standard_sets_attributes
    (helpers : Helpers) (client : EnvironmentsClient) (st : State client)
    (id : TimeSeriesInsightsEnvironmentId) (resp : EnvironmentResourceModel)
    (environment : StandardEnvironmentResource) (remote' : Remote client)
    (sku_name : string) :
  (forall d0 tagMap,
      tags_FlattenAndSet helpers d0 tagMap
      = (None, snd (tags_FlattenAndSet helpers d0 tagMap)) /\
      Id (snd (tags_FlattenAndSet helpers d0 tagMap)) = Id d0 /\
      attributes (snd (tags_FlattenAndSet helpers d0 tagMap)) = attributes d0) ->
  TimeSeriesInsightsEnvironmentID helpers (Id (d st)) = inl id ->
  Get client (ResourceGroup id) (EnvironmentName id) "" (remote st) = (resp, None, remote') ->
  Value resp = Some (IsStandardEnvironmentResource environment) ->
  flattenEnvironmentSkuName (std_Sku environment) = Ok sku_name ->
  let result := resourceArmTimeSeriesInsightsEnvironmentRead helpers client st in
  fst result = Ok tt /\
  Id (d (snd result)) = Id (d st) /\
  d_Get (d (snd result)) "resource_group_name" = ResourceGroup id /\
  d_Get (d (snd result)) "sku_name" = sku_name /\
  d_Get (d (snd result)) "name" = default "" (std_Name environment).
Proof.
  intros Htags Hid Hget Hvalue Hsku result. subst result.
  unfold_handler. rewrite Hid, Hget. cbn. rewrite Hvalue. cbn. rewrite Hsku. cbn.
  destruct (std_Location environment) as [location|],
           (std_Properties environment) as [[behavior [retention|]]|]; cbn;
    match goal with
    | |- context [tags_FlattenAndSet ?h ?x ?t] =>
        destruct (Htags x t) as (Hres & HId & Hattr);
        destruct (tags_FlattenAndSet h x t) as [e d'] eqn:Hfas
    end; cbn in *; injection Hres as ->; cbn;
    unfold d_Get; rewrite HId, Hattr; cbn;
    (repeat split; try reflexivity;
     destruct (std_Name environment); cbn; by simplify_map_eq).
Qed.

Lemma read_standard_sets_attributes_witness :
  let result :=
    resourceArmTimeSeriesInsightsEnvironmentRead (sample_helpers true) sample_client
      (sample_state sample_existing
         {[ ("rg1", "env1") := IsStandardEnvironmentResource sample_full ]}) in
  fst result = Ok tt /\
  Id (d (snd result)) = Id sample_existing /\
  d_Get (d (snd result)) "resource_group_name" = "rg1" /\
  d_Get (d (snd result)) "sku_name" = "S2_3" /\
  d_Get (d (snd result)) "name" = default "" (std_Name sample_full).
Proof.
  apply (read_standard_sets_attributes (sample_helpers true) sample_client
           (sample_state sample_existing
              {[ ("rg1", "env1") := IsStandardEnvironmentResource sample_full ]})
           (mkEnvironmentId "rg1" "env1")
           (mkModel (Some (mkResponse 200)) (Some (IsStandardEnvironmentResource sample_full)))
           sample_full
           ({[ ("rg1", "env1") := IsStandardEnvironmentResource sample_full ]}
              : Remote sample_client)
           "S2_3");
    [intros d0 tagMap; repeat split | reflexivity | reflexivity | reflexivity | reflexivity].
Defined.

(** An ID the importer's validation accepts is one the read handler goes on
    to fetch: the handler sends its Get for the parsed resource group and
    name. *)
Theorem imported_id_is_fetched
    (helpers : Helpers) (client : EnvironmentsClient) (st : State client) :
  validateImportID helpers (Id (d st)) = None ->
  exists id,
    TimeSeriesInsightsEnvironmentID helpers (Id (d st)) = inl id /\
    requests (snd (resourceArmTimeSeriesInsightsEnvironmentRead helpers client st))
    = (requests st ++ [GetRequest (ResourceGroup id) (EnvironmentName id)])%list.
Proof.
  unfold validateImportID. intros H.
  pose proof (proj2 (read_outcome helpers client st)) as Hreq.
  destruct (TimeSeriesInsightsEnvironmentID helpers (Id (d st))) as [id | e];
    [| discriminate].
  exists id. split; [reflexivity | exact Hreq].
Qed.

Lemma imported_id_is_fetched_witness :
  exists id,
    TimeSeriesInsightsEnvironmentID (sample_helpers true) (Id (d absent_state)) = inl id /\
    requests (snd (resourceArmTimeSeriesInsightsEnvironmentRead (sample_helpers true)
                     sample_client absent_state))
    = (requests absent_state ++ [GetRequest (ResourceGroup id) (EnvironmentName id)])%list.
Proof.
  apply (imported_id_is_fetched (sample_helpers true) sample_client absent_state).
  reflexivity.
Defined.

(** ** The delete handler *)

(** The delete handler never panics, never touches the resource data, and
    sends one Delete request when the ID parses and nothing otherwise. *)
Theorem delete_keeps_resource_data
    (helpers : Helpers) (client : EnvironmentsClient) (st : State client) :
  (forall p, fst (resourceArmTimeSeriesInsightsEnvironmentDelete helpers client st) <> Panic p) /\
  d (snd (resourceArmTimeSeriesInsightsEnvironmentDelete helpers client st)) = d st /\
  match TimeSeriesInsightsEnvironmentID helpers (Id (d st)) with
  | inr e =>
      resourceArmTimeSeriesInsightsEnvironmentDelete helpers client st = (Err e, st)
  | inl id =>
      requests (snd (resourceArmTimeSeriesInsightsEnvironmentDelete helpers client st))
      = (requests st ++ [DeleteRequest (ResourceGroup id) (EnvironmentName id)])%list
  end.
Proof.
  unfold_handler.
  destruct (TimeSeriesInsightsEnvironmentID helpers (Id (d st))) as [id | e]; cbn;
    [| repeat split; discriminate].
  destruct (Delete client _ _ _) as [[response err] remote']; cbn.
  destruct err as [e|]; [destruct (ResponseWasNotFound helpers response) |]; cbn;
    repeat split; discriminate.
Qed.

(** For an ID that parses, the delete handler returns no error exactly when
    the Delete returned no error or a not-found response; otherwise it returns
    the deleting error that carries the Delete's error. *)
Theorem delete_succeeds_iff
    (helpers : Helpers) (client : EnvironmentsClient) (st : State client)
    (id : TimeSeriesInsightsEnvironmentId) (response : autorest_Response)
    (err : option error) (remote' : Remote client) :
  TimeSeriesInsightsEnvironmentID helpers (Id (d st)) = inl id ->
  Delete client (ResourceGroup id) (EnvironmentName id) (remote st) = (response, err, remote') ->
  (fst (resourceArmTimeSeriesInsightsEnvironmentDelete helpers client st) = Ok tt <->
   err = None \/ ResponseWasNotFound helpers response = true) /\
  (forall e, err = Some e -> ResponseWasNotFound helpers response = false ->
     fst (resourceArmTimeSeriesInsightsEnvironmentDelete helpers client st)
     = Err (ErrDeleting (EnvironmentName id) (ResourceGroup id) e)).
Proof.
  intros Hid Hdel. unfold_handler. rewrite Hid, Hdel. cbn.
  destruct err as [e|]; [destruct (ResponseWasNotFound helpers response) |]; cbn; split.
  - split; [intros _; right; reflexivity | reflexivity].
  - intros e' _ [=].
  - split; [discriminate | intros [H | H]; discriminate].
  - intros e' [= <-] _. reflexivity.
  - split; [intros _; left; reflexivity | reflexivity].
  - intros e' [=].
Qed.

Lemma delete_succeeds_iff_witness :
  (fst (resourceArmTimeSeriesInsightsEnvironmentDelete (sample_helpers true)
          (scripted_client (sample_script sample_server_error None None))
          (scripted_state (sample_script sample_server_error None None) sample_existing))
   = Ok tt <->
   Some server_error = None
   \/ ResponseWasNotFound (sample_helpers true) (Some (mkResponse 500)) = true) /\
  (forall e, Some server_error = Some e ->
     ResponseWasNotFound (sample_helpers true) (Some (mkResponse 500)) = false ->
     fst (resourceArmTimeSeriesInsightsEnvironmentDelete (sample_helpers true)
            (scripted_client (sample_script sample_server_error None None))
            (scripted_state (sample_script sample_server_error None None) sample_existing))
     = Err (ErrDeleting "env1" "rg1" e)).
Proof.
  apply (delete_succeeds_iff (sample_helpers true)
           (scripted_client (sample_script sample_server_error None None))
           (scripted_state (sample_script sample_server_error None None) sample_existing)
           (mkEnvironmentId "rg1" "env1") (Some (mkResponse 500)) (Some server_error) tt);
    reflexivity.
Defined.

(** ** The create-update handler *)

(** When the SKU name does not expand to a SKU, the create-update handler
    stops before any request and leaves the state untouched: it returns the
    expansion's error, wrapped, or panics as the expansion does. *)
Theorem create_update_bad_sku_sends_nothing
    (helpers : Helpers) (client : EnvironmentsClient) (st : State client) :
  (forall sku, expandEnvironmentSkuName (d_Get (d st) "sku_name") <> Ok sku) ->
  snd (resourceArmTimeSeriesInsightsEnvironmentCreateUpdate helpers client st) = st /\
  (forall e, expandEnvironmentSkuName (d_Get (d st) "sku_name") = Err e ->
     fst (resourceArmTimeSeriesInsightsEnvironmentCreateUpdate helpers client st)
     = Err (ErrExpandingSku e)) /\
  (forall p, expandEnvironmentSkuName (d_Get (d st) "sku_name") = Panic p ->
     fst (resourceArmTimeSeriesInsightsEnvironmentCreateUpdate helpers client st)
     = Panic p).
Proof.
  intros Hbad. unfold_handler.
  destruct (expandEnvironmentSkuName (d_Get (d st) "sku_name")) as [sku | e | p];
    [exfalso; exact (Hbad sku eq_refl) | |]; cbn;
    (split; [reflexivity | split; intros x [= <-]; reflexivity]).
Qed.

Lemma create_update_bad_sku_sends_nothing_witness :
  snd (resourceArmTimeSeriesInsightsEnvironmentCreateUpdate (sample_helpers true)
         sample_client bad_sku_state) = bad_sku_state /\
  (forall e, expandEnvironmentSkuName (d_Get (d bad_sku_state) "sku_name") = Err e ->
     fst (resourceArmTimeSeriesInsightsEnvironmentCreateUpdate (sample_helpers true)
            sample_client bad_sku_state)
     = Err (ErrExpandingSku e)) /\
  (forall p, expandEnvironmentSkuName (d_Get (d bad_sku_state) "sku_name") = Panic p ->
     fst (resourceArmTimeSeriesInsightsEnvironmentCreateUpdate (sample_helpers true)
            sample_client bad_sku_state)
     = Panic p).
Proof.
  apply (create_update_bad_sku_sends_nothing (sample_helpers true) sample_client
           bad_sku_state).
  intros sku. vm_compute. discriminate.
Defined.

(** With import protection on and a new resource, a pre-flight Get that
    fails with a response other than not-found stops the handler with the
    checking-for-presence error after that one Get. *)
Theorem create_update_preflight_failure
    (helpers : Helpers) (client : EnvironmentsClient) (st : State client) (sku : Sku)
    (existing : EnvironmentResourceModel) (e : error) (remote' : Remote client) :
  ShouldResourcesBeImported helpers = true ->
  IsNewResource (d st) = true ->
  expandEnvironmentSkuName (d_Get (d st) "sku_name") = Ok sku ->
  Get client (d_Get (d st) "resource_group_name") (d_Get (d st) "name") "" (remote st)
    = (existing, Some e, remote') ->
  ResponseWasNotFound helpers (Response existing) = false ->
  resourceArmTimeSeriesInsightsEnvironmentCreateUpdate helpers client st =
    (Err (ErrCheckingPresence (d_Get (d st) "name") (d_Get (d st) "resource_group_name") e),
     mkState (d st) remote'
             (requests st ++ [GetRequest (d_Get (d st) "resource_group_name")
                                         (d_Get (d st) "name")])).
Proof.
  intros Himport Hnew Hsku Hget Hnf. unfold_handler.
  rewrite Hsku. cbn. rewrite Himport, Hnew. cbn. rewrite Hget. cbn. rewrite Hnf.
  reflexivity.
Qed.

Lemma create_update_preflight_failure_witness :
  resourceArmTimeSeriesInsightsEnvironmentCreateUpdate (sample_helpers true)
    (scripted_client (sample_script sample_server_error None None))
    (scripted_state (sample_script sample_server_error None None) sample_config)
  = (Err (ErrCheckingPresence "env1" "rg1" server_error),
     mkState sample_config (tt : Remote (scripted_client _))
             ([] ++ [GetRequest "rg1" "env1"])).
Proof.
  apply (create_update_preflight_failure (sample_helpers true)
           (scripted_client (sample_script sample_server_error None None))
           (scripted_state (sample_script sample_server_error None None) sample_config)
           (mkSku S1 (Some 5)) (fst sample_server_error) server_error tt);
    reflexivity.
Defined.

(** With import protection on and a new resource, a pre-flight Get that
    finds nothing to protect (no error or a not-found response, and no value,
    or a standard environment whose ID is nil or empty) lets the handler go
    on exactly as the unprotected handler does from the state after that
    Get. *)
Theorem create_update_preflight_passes
    (helpers : Helpers) (client : EnvironmentsClient) (st : State client)
    (existing : EnvironmentResourceModel) (err : option error) (remote' : Remote client) :
  ShouldResourcesBeImported helpers = true ->
  IsNewResource (d st) = true ->
  Get client (d_Get (d st) "resource_group_name") (d_Get (d st) "name") "" (remote st)
    = (existing, err, remote') ->
  err = None \/ ResponseWasNotFound helpers (Response existing) = true ->
  Value existing = None
  \/ (exists environment,
        Value existing = Some (IsStandardEnvironmentResource environment) /\
        (std_ID environment = None \/ std_ID environment = Some "")) ->
  (exists sku, expandEnvironmentSkuName (d_Get (d st) "sku_name") = Ok sku) ->
  resourceArmTimeSeriesInsightsEnvironmentCreateUpdate helpers client st =
  resourceArmTimeSeriesInsightsEnvironmentCreateUpdate
    (without_import_protection helpers) client
    (mkState (d st) remote'
             (requests st ++ [GetRequest (d_Get (d st) "resource_group_name")
                                         (d_Get (d st) "name")])).
Proof.
  intros Himport Hnew Hget Herr Hvalue [sku Hsku]. unfold_handler.
  cbn [d remote requests]. rewrite Hsku. cbn. rewrite Himport, Hnew. cbn. rewrite Hget. cbn.
  destruct err as [e|].
  - destruct Herr as [H | H]; [discriminate|]. rewrite H. cbn.
    destruct Hvalue as [Hv | (environment & Hv & Hid)]; rewrite Hv; cbn;
      [reflexivity | destruct Hid as [Hid | Hid]; rewrite Hid; reflexivity].
  - cbn. destruct Hvalue as [Hv | (environment & Hv & Hid)]; rewrite Hv; cbn;
      [reflexivity | destruct Hid as [Hid | Hid]; rewrite Hid; reflexivity].
Qed.

Lemma create_update_preflight_passes_witness :
  resourceArmTimeSeriesInsightsEnvironmentCreateUpdate (sample_helpers true) sample_client
    (sample_state sample_config ∅)
  = resourceArmTimeSeriesInsightsEnvironmentCreateUpdate
      (without_import_protection (sample_helpers true)) sample_client
      (mkState sample_config (∅ : Remote sample_client) ([] ++ [GetRequest "rg1" "env1"])).
Proof.
  apply (create_update_preflight_passes (sample_helpers true) sample_client
           (sample_state sample_config ∅) (fst sample_not_found) (snd sample_not_found)
           (∅ : Remote sample_client));
    [reflexivity | reflexivity | reflexivity | right; reflexivity | left; reflexivity
    | eexists; reflexivity].
Defined.

Section WithoutPreflight.

(** The handler past the import-protection block: the feature is off or the
    resource is not new, and the SKU name expands. *)
Context (helpers : Helpers) (client : EnvironmentsClient) (st : State client) (sku : Sku).
Hypothesis Hskip : ShouldResourcesBeImported helpers && IsNewResource (d st) = false.
Hypothesis Hsku : expandEnvironmentSkuName (d_Get (d st) "sku_name") = Ok sku.

#[local] Abbreviation name := (d_Get (d st) "name").
#[local] Abbreviation resourceGroup := (d_Get (d st) "resource_group_name").
#[local] Abbreviation create :=
  (CreateOrUpdateRequest resourceGroup name (request_parameters helpers (d st) sku)).

(** Without the pre-flight check the first request is the CreateOrUpdate,
    carrying the normalised location, the expanded tags and SKU, the
    storage-limit behaviour and the retention time; when it fails the handler
    returns the creating-updating error, sends nothing more and keeps the
    resource data. *)
Theorem create_update_request_failure
    (future : Future client) (e : error) (remote1 : Remote client) :
  CreateOrUpdate client resourceGroup name (request_parameters helpers (d st) sku) (remote st)
    = (future, Some e, remote1) ->
  resourceArmTimeSeriesInsightsEnvironmentCreateUpdate helpers client st =
    (Err (ErrCreatingUpdating name resourceGroup e),
     mkState (d st) remote1 (requests st ++ [create])).
Proof.
  intros Hcreate. unfold_handler. rewrite Hsku. cbn. rewrite Hskip. cbn.
  unfold request_parameters in Hcreate. rewrite Hcreate.
  reflexivity.
Qed.

(** When the CreateOrUpdate is accepted and waiting for its completion
    fails, the handler returns the waiting error after the two requests, and
    keeps the resource data: no ID is set. *)
Theorem create_update_wait_failure
    (future : Future client) (e : error) (remote1 remote2 : Remote client) :
  CreateOrUpdate client resourceGroup name (request_parameters helpers (d st) sku) (remote st)
    = (future, None, remote1) ->
  WaitForCompletionRef client future remote1 = (Some e, remote2) ->
  resourceArmTimeSeriesInsightsEnvironmentCreateUpdate helpers client st =
    (Err (ErrWaitingForCompletion name resourceGroup e),
     mkState (d st) remote2 (requests st ++ [create; WaitRequest])).
Proof.
  intros Hcreate Hwait. unfold_handler. rewrite Hsku. cbn. rewrite Hskip. cbn.
  unfold request_parameters in Hcreate. rewrite Hcreate. cbn.
  rewrite Hwait. cbn. rewrite <- app_assoc. reflexivity.
Qed.

(** After a completed CreateOrUpdate, a read-back that gives no ID (an error,
    a resource of another kind, or a standard environment with a nil ID)
    fails the handler with the matching error, and a read-back without error
    and without value panics; in each case the resource data is kept, so the
    ID stays unset although the remote was changed. *)
Theorem create_update_read_back_failure
    (future : Future client) (remote1 remote2 remote3 : Remote client)
    (resp : EnvironmentResourceModel) (err : option error) :
  CreateOrUpdate client resourceGroup name (request_parameters helpers (d st) sku) (remote st)
    = (future, None, remote1) ->
  WaitForCompletionRef client future remote1 = (None, remote2) ->
  Get client resourceGroup name "" remote2 = (resp, err, remote3) ->
  err <> None \/ Value resp = None
  \/ (exists value, Value resp = Some value /\
        (AsStandardEnvironmentResource value = None \/
         exists resource, value = IsStandardEnvironmentResource resource /\
                          std_ID resource = None)) ->
  resourceArmTimeSeriesInsightsEnvironmentCreateUpdate helpers client st =
    (match err, Value resp with
     | Some e, _ => Err (ErrRetrieving name resourceGroup (Some e))
     | None, None => Panic NilDereference
     | None, Some value =>
         match AsStandardEnvironmentResource value with
         | None => Err (ErrNotStandard name resourceGroup)
         | Some _ => Err (ErrCannotReadID name resourceGroup)
         end
     end,
     mkState (d st) remote3
             (requests st ++ [create; WaitRequest; GetRequest resourceGroup name])).
Proof.
  intros Hcreate Hwait Hget Hcase. unfold_handler. rewrite Hsku. cbn. rewrite Hskip. cbn.
  unfold request_parameters in Hcreate. rewrite Hcreate. cbn.
  rewrite Hwait. cbn. rewrite Hget. cbn.
  rewrite <- !app_assoc. cbn.
  destruct err as [e|]; [reflexivity|]. cbn.
  destruct Hcase as [H | [H | (value & Hv & Hkind)]]; [contradiction | rewrite H; reflexivity |].
  rewrite Hv. cbn.
  destruct Hkind as [H | (resource & -> & Hid)]; [rewrite H; reflexivity|].
  cbn. rewrite Hid. reflexivity.
Qed.

(** After a completed CreateOrUpdate whose read-back finds a standard
    environment with an ID, the handler stores that ID and finishes as the
    read handler does from there: its result is the read handler's
    result. *)
Theorem create_update_finishes_with_read
    (future : Future client) (remote1 remote2 remote3 : Remote client)
    (resp : EnvironmentResourceModel) (resource : StandardEnvironmentResource)
    (id : string) :
  CreateOrUpdate client resourceGroup name (request_parameters helpers (d st) sku) (remote st)
    = (future, None, remote1) ->
  WaitForCompletionRef client future remote1 = (None, remote2) ->
  Get client resourceGroup name "" remote2 = (resp, None, remote3) ->
  Value resp = Some (IsStandardEnvironmentResource resource) ->
  std_ID resource = Some id ->
  resourceArmTimeSeriesInsightsEnvironmentCreateUpdate helpers client st =
  resourceArmTimeSeriesInsightsEnvironmentRead helpers client
    (mkState (d_SetId (d st) id) remote3
             (requests st ++ [create; WaitRequest; GetRequest resourceGroup name])).
Proof.
  intros Hcreate Hwait Hget Hvalue Hid.
  unfold resourceArmTimeSeriesInsightsEnvironmentCreateUpdate, check_existing,
    client_Get, client_CreateOrUpdate, future_WaitForCompletionRef,
    bind, get_d, modify_d, lift, ret, fail.
  rewrite Hsku. cbn. rewrite Hskip. cbn.
  unfold request_parameters in Hcreate. rewrite Hcreate. cbn.
  rewrite Hwait. cbn. rewrite Hget. cbn.
  rewrite Hvalue. cbn. rewrite Hid. cbn. rewrite <- !app_assoc. reflexivity.
Qed.

End WithoutPreflight.

Lemma create_update_request_failure_witness :
  resourceArmTimeSeriesInsightsEnvironmentCreateUpdate (sample_helpers false)
    (scripted_client create_fails) (scripted_state create_fails sample_config)
  = (Err (ErrCreatingUpdating "env1" "rg1" server_error),
     mkState sample_config (tt : Remote (scripted_client create_fails))
       ([] ++ [CreateOrUpdateRequest "rg1" "env1"
                 (request_parameters (sample_helpers false) sample_config
                    (mkSku S1 (Some 5)))])).
Proof.
  apply (create_update_request_failure (sample_helpers false) (scripted_client create_fails)
           (scripted_state create_fails sample_config) (mkSku S1 (Some 5))
           eq_refl eq_refl tt server_error tt).
  reflexivity.
Defined.

Lemma create_update_wait_failure_witness :
  resourceArmTimeSeriesInsightsEnvironmentCreateUpdate (sample_helpers false)
    (scripted_client wait_fails) (scripted_state wait_fails sample_config)
  = (Err (ErrWaitingForCompletion "env1" "rg1" server_error),
     mkState sample_config (tt : Remote (scripted_client wait_fails))
       ([] ++ [CreateOrUpdateRequest "rg1" "env1"
                 (request_parameters (sample_helpers false) sample_config
                    (mkSku S1 (Some 5)));
               WaitRequest])).
Proof.
  apply (create_update_wait_failure (sample_helpers false) (scripted_client wait_fails)
           (scripted_state wait_fails sample_config) (mkSku S1 (Some 5))
           eq_refl eq_refl tt server_error tt tt);
    reflexivity.
Defined.

Lemma create_update_read_back_failure_witness :
  resourceArmTimeSeriesInsightsEnvironmentCreateUpdate (sample_helpers false)
    (scripted_client read_back_without_id)
    (scripted_state read_back_without_id sample_config)
  = (Err (ErrCannotReadID "env1" "rg1"),
     mkState sample_config (tt : Remote (scripted_client read_back_without_id))
       ([] ++ [CreateOrUpdateRequest "rg1" "env1"
                 (request_parameters (sample_helpers false) sample_config
                    (mkSku S1 (Some 5)));
               WaitRequest; GetRequest "rg1" "env1"])).
Proof.
  apply (create_update_read_back_failure (sample_helpers false)
           (scripted_client read_back_without_id)
           (scripted_state read_back_without_id sample_config) (mkSku S1 (Some 5))
           eq_refl eq_refl tt tt tt tt
           (fst (sample_found sample_without_id)) None);
    [reflexivity | reflexivity | reflexivity |].
  right. right. exists sample_without_id. split; [reflexivity|].
  right. eexists. split; reflexivity.
Defined.

Lemma create_update_finishes_with_read_witness :
  resourceArmTimeSeriesInsightsEnvironmentCreateUpdate (sample_helpers false) sample_client
    (sample_state sample_config ∅)
  = resourceArmTimeSeriesInsightsEnvironmentRead (sample_helpers false) sample_client
      (mkState (d_SetId sample_config (sample_id "rg1" "env1"))
         (snd (CreateOrUpdate sample_client "rg1" "env1"
                 (request_parameters (sample_helpers false) sample_config
                    (mkSku S1 (Some 5))) ∅))
         ([] ++ [CreateOrUpdateRequest "rg1" "env1"
                   (request_parameters (sample_helpers false) sample_config
                      (mkSku S1 (Some 5)));
                 WaitRequest; GetRequest "rg1" "env1"])).
Proof.
  eapply (create_update_finishes_with_read (sample_helpers false) sample_client
            (sample_state sample_config ∅) (mkSku S1 (Some 5)) eq_refl eq_refl tt);
    [reflexivity | reflexivity | vm_compute; reflexivity | reflexivity | reflexivity].
Defined.
